(** * PDF data extractor: the template-driven field extraction engine

    A shallow embedding of [src/app.py]: the value normalizer
    [postprocess_value] and the template extractor [extract_fields],
    together with the part of Python's [re] and [str] that they call.

    Modelling conventions.
    - A Python [str] is a [string]; one [ascii] stands for one code point
      below 256 (Latin-1), and the character classes ([\d], [\s], [\w],
      [str.strip]'s white space) are Python's Unicode classes restricted to
      that range.
    - A Python value that is a [str] or [None] is an [option string].
    - A Python [float] holding a confidence is an exact rational [Q]; the
      decimal literals of the source are read as the rationals they denote.
      The scores are computed in binary64 as well ([float_score]) to check
      that the clamp behaves there as it does on the rationals.  The
      rationals do not round: what the rounding of the sum and of the
      division does to the average is computed with [float_average].
    - A computation that may raise returns a [result]: [Ok v] or [Raise e].
    - The dictionary [fields] is a [gmap string ExtractionResult]; the list
      [confidences] is a [list Q].
    - The patterns written in the source are run by the regex model of the
      module [Re].  The patterns of a template are the caller's:
      [extract_fields] takes the compiling and the searching of these as
      parameters, and [Re] is one instance. *)

From Stdlib Require Import QArith Qminmax Lqa Ascii String Floats.
From stdpp Require Import gmap strings list.

(** ** Exceptions and fallible computations *)

Inductive exn :=
| ReError (msg : string)        (* re.error *)
| TypeError
| AttributeError
| ValueError
| ZeroDivisionError
| NotModelled (what : string).  (* a construct outside the modelled part of [re] *)

Inductive result (A : Type) :=
| Ok (a : A)
| Raise (e : exn).
Arguments Ok {A} a.
Arguments Raise {A} e.

#[global] Instance result_ret : MRet result := fun A a => Ok a.
#[global] Instance result_bind : MBind result := fun A B f c =>
  match c with
  | Ok a => f a
  | Raise e => Raise e
  end.

(** [try: body except Exception: handler].  Every exception the model can
    raise derives from [Exception], so the handler catches all of them. *)
Definition try_except {A} (body : result A) (handler : A) : A :=
  match body with
  | Ok a => a
  | Raise _ => handler
  end.

Definition is_ok {A} (c : result A) : bool :=
  match c with Ok _ => true | Raise _ => false end.

(** ** Python strings *)

Module Str.

Definition code (c : ascii) : N := N_of_ascii c.

Definition in_range (lo hi : N) (c : ascii) : bool :=
  (lo <=? code c)%N && (code c <=? hi)%N.

(** [Py_UNICODE_ISSPACE] below U+0100: TAB..CR, FS..US, SPACE, NEL, NBSP. *)
Definition isspace (c : ascii) : bool :=
  in_range 9 13 c || in_range 28 32 c
  || (code c =? 133)%N || (code c =? 160)%N.

(** [Py_UNICODE_ISDECIMAL] below U+0100: the ASCII digits. *)
Definition isdecimal (c : ascii) : bool := in_range 48 57 c.

(** [Py_UNICODE_ISALNUM] below U+0100: ASCII letters and digits, the
    letters and numeric signs of Latin-1. *)
Definition isalnum (c : ascii) : bool :=
  in_range 48 57 c || in_range 65 90 c || in_range 97 122 c
  || (code c =? 170)%N || in_range 178 179 c || (code c =? 181)%N
  || in_range 185 186 c || in_range 188 190 c
  || in_range 192 214 c || in_range 216 246 c || in_range 248 255 c.

(** Lower-case mapping of the code points below U+0100. *)
Definition lower (c : ascii) : ascii :=
  if in_range 65 90 c || in_range 192 214 c || in_range 216 222 c
  then ascii_of_N (code c + 32) else c.

Fixpoint lstrip (s : string) : string :=
  match s with
  | String c t => if isspace c then lstrip t else s
  | EmptyString => EmptyString
  end.

Fixpoint rstrip (s : string) : string :=
  match s with
  | String c t =>
      match rstrip t with
      | EmptyString => if isspace c then EmptyString else String c EmptyString
      | t' => String c t'
      end
  | EmptyString => EmptyString
  end.

(** [s.strip()] *)
Definition strip (s : string) : string := rstrip (lstrip s).

Fixpoint repeat_char (c : ascii) (n : nat) : string :=
  match n with
  | O => EmptyString
  | S n' => String c (repeat_char c n')
  end.

(** [s.zfill(width)]: zeros are inserted after a leading sign. *)
Definition zfill (s : string) (width : nat) : string :=
  let fill := repeat_char "0" (width - String.length s) in
  match s with
  | String c t =>
      if Ascii.eqb c "+" || Ascii.eqb c "-"
      then String c (fill +:+ t)
      else fill +:+ s
  | EmptyString => fill
  end.

(** [s[:n]] and [s[n:]] *)
Fixpoint take (n : nat) (s : string) : string :=
  match n, s with
  | S n', String c t => String c (take n' t)
  | _, _ => EmptyString
  end.

Fixpoint drop (n : nat) (s : string) : string :=
  match n, s with
  | S n', String _ t => drop n' t
  | _, _ => s
  end.

Definition slice (b e : nat) (s : string) : string := take (e - b) (drop b s).

End Str.

(** ** Regular expressions: the part of Python's [re] that the code uses

    Patterns are parsed the way [sre_parse] does for the constructs below;
    an unknown escape made of a backslash and an ASCII letter is an error
    ([re.error: bad escape]), as it is in every Python since 3.6.  A pattern
    that uses a construct outside this fragment (look-around, back
    references, inline flags, hexadecimal or octal escapes) is reported as
    [NotModelled]: no statement below interprets such a pattern. *)

Module Re.

Inductive category := Digit | Space | Word.

Inductive citem :=
| CLit (c : ascii)
| CRange (lo hi : ascii)
| CCategory (k : category) (negated : bool).

Inductive regex :=
| Eps
| Lit (c : ascii)
| AnyChar                                   (* [.] without DOTALL *)
| In (negate : bool) (items : list citem)   (* [[...]], [\d], ... *)
| Bol                                       (* [^] *)
| Eol                                       (* [$] *)
| Cat (r1 r2 : regex)
| Alt (r1 r2 : regex)
| Repeat (lo : nat) (hi : option nat) (greedy : bool) (r : regex)
| Group (idx : nat) (r : regex).

(** *** Parsing *)

Definition is_ascii_letter (c : ascii) : bool :=
  Str.in_range 65 90 c || Str.in_range 97 122 c.

Definition bad_escape {A} (c : ascii) : result A :=
  Raise (ReError ("bad escape \" +:+ String c "")).

Definition category_escape (c : ascii) : option citem :=
  match c with
  | "d" => Some (CCategory Digit false)
  | "D" => Some (CCategory Digit true)
  | "s" => Some (CCategory Space false)
  | "S" => Some (CCategory Space true)
  | "w" => Some (CCategory Word false)
  | "W" => Some (CCategory Word true)
  | _ => None
  end%char.

(** The escapes that denote one character, shared by both contexts. *)
Definition char_escape (c : ascii) : option ascii :=
  match c with
  | "a" => Some "007"
  | "f" => Some "012"
  | "n" => Some "010"
  | "r" => Some "013"
  | "t" => Some "009"
  | "v" => Some "011"
  | "\" => Some "\"
  | _ => None
  end%char.

Definition numeric_escape (c : ascii) : bool :=
  match c with
  | "x" | "u" | "U" | "N" => true
  | _ => Str.isdecimal c
  end%char.

(** [sre_parse._class_escape]: the character after a backslash inside
    [[...]]. *)
Definition class_escape (c : ascii) : result citem :=
  match char_escape c with
  | Some x => Ok (CLit x)
  | None =>
      if Ascii.eqb c "b" then Ok (CLit "008"%char) else
      match category_escape c with
      | Some k => Ok k
      | None =>
          if numeric_escape c then Raise (NotModelled "numeric escape")
          else if is_ascii_letter c then bad_escape c
          else Ok (CLit c)
      end
  end.

(** [sre_parse._escape]: the character after a backslash outside a
    class. *)
Definition escape (c : ascii) : result regex :=
  match category_escape c with
  | Some k => Ok (In false [k])
  | None =>
      match char_escape c with
      | Some x => Ok (Lit x)
      | None =>
          if numeric_escape c then Raise (NotModelled "numeric escape")
          else if (Ascii.eqb c "A" || Ascii.eqb c "Z"
                   || Ascii.eqb c "b" || Ascii.eqb c "B")%char
          then Raise (NotModelled "position escape")
          else if is_ascii_letter c then bad_escape c
          else Ok (Lit c)
      end
  end.

(** One member of a class: a character or an escape. *)
Definition class_atom (s : string) : result (citem * string) :=
  match s with
  | String "\" (String c t) => k ← class_escape c; Ok (k, t)
  | String "\" EmptyString => Raise (ReError "bad escape (end of pattern)")
  | String c t => Ok (CLit c, t)
  | EmptyString => Raise (ReError "unterminated character set")
  end.

Definition mk_range (lo hi : citem) : result citem :=
  match lo, hi with
  | CLit a, CLit b =>
      if (Str.code a <=? Str.code b)%N then Ok (CRange a b)
      else Raise (ReError "bad character range")
  | _, _ => Raise (ReError "bad character range")
  end.

(** The members of a class up to the closing bracket.  [first] holds
    while a bracket would still be read as a member. *)
Fixpoint class_items (fuel : nat) (first : bool) (s : string)
    (acc : list citem) : result (list citem * string) :=
  match fuel with
  | O => Raise (ReError "unterminated character set")
  | S fuel' =>
      match s with
      | EmptyString => Raise (ReError "unterminated character set")
      | String c t =>
          if Ascii.eqb c "]" && negb first then Ok (acc, t) else
          '(lo, s1) ← class_atom s;
          match s1 with
          | String "-" (String c2 t2) =>
              if Ascii.eqb c2 "]" then
                Ok (acc ++ [lo; CLit "-"%char], t2)
              else
                '(hi, s2) ← class_atom (String c2 t2);
                r ← mk_range lo hi;
                class_items fuel' false s2 (acc ++ [r])
          | _ => class_items fuel' false s1 (acc ++ [lo])
          end
      end
  end.

(** [[...]] after the opening bracket. *)
Definition class (s : string) : result (regex * string) :=
  match s with
  | String "^" t =>
      '(items, rest) ← class_items (String.length t) true t [];
      Ok (In true items, rest)
  | _ =>
      '(items, rest) ← class_items (String.length s) true s [];
      Ok (In false items, rest)
  end.

(** Quantifiers.  [digits s acc] reads a run of decimal digits. *)
Fixpoint digits (s : string) (acc : option nat) : option nat * string :=
  match s with
  | String c t =>
      if Str.isdecimal c
      then digits t (Some (10 * default 0 acc + N.to_nat (Str.code c - 48)))
      else (acc, s)
  | EmptyString => (acc, s)
  end.

(** What follows an opening brace: [{m}], [{m,}], [{,n}] or [{m,n}];
    anything else leaves the brace a literal ([None]). *)
Definition braces (s : string) : result (option (nat * option nat * string)) :=
  match s with
  | String "}" _ => Ok None
  | _ =>
      let '(lo, s1) := digits s None in
      let '(hi, s2) :=
        match s1 with
        | String "," t => digits t None
        | _ => (lo, s1)
        end in
      match s2 with
      | String "}" rest =>
          match hi with
          | Some h =>
              if h <? default 0 lo
              then Raise (ReError "min repeat greater than max repeat")
              else Ok (Some (default 0 lo, hi, rest))
          | None => Ok (Some (default 0 lo, None, rest))
          end
      | _ => Ok None
      end
  end.

Definition quantifier (s : string) : result (option (nat * option nat * string)) :=
  match s with
  | String "*" t => Ok (Some (0, None, t))
  | String "+" t => Ok (Some (1, None, t))
  | String "?" t => Ok (Some (0, Some 1, t))
  | String "{" t => braces t
  | _ => Ok None
  end.

(** An item followed by its quantifier, if any.  A position ([^], [$])
    cannot be repeated, and a repeat cannot be repeated again. *)
Definition quantify (atom : regex) (repeatable : bool) (s : string)
    : result (regex * string) :=
  q ← quantifier s;
  match q with
  | None => Ok (atom, s)
  | Some (lo, hi, s1) =>
      if negb repeatable then Raise (ReError "nothing to repeat") else
      match s1 with
      | String "+" _ => Raise (NotModelled "possessive quantifier")
      | _ =>
          let '(greedy, s2) :=
            match s1 with
            | String "?" t => (false, t)
            | _ => (true, s1)
            end in
          q2 ← quantifier s2;
          match q2 with
          | Some _ => Raise (ReError "multiple repeat")
          | None => Ok (Repeat lo hi greedy atom, s2)
          end
      end
  end.

(** Groups are numbered by their opening parenthesis; [gnames] maps the
    names of the [(?P<name>...)] groups to their numbers. *)
Record pstate := { ngroups : nat; gnames : list (string * nat) }.

Definition is_name_char (first : bool) (c : ascii) : bool :=
  is_ascii_letter c || Ascii.eqb c "_" || (negb first && Str.isdecimal c).

Fixpoint scan_name (s : string) (first : bool) : result (string * string) :=
  match s with
  | EmptyString => Raise (ReError "missing >, unterminated name")
  | String ">" t =>
      if first then Raise (ReError "missing group name") else Ok (EmptyString, t)
  | String c t =>
      if (128 <=? Str.code c)%N then Raise (NotModelled "group name")
      else if is_name_char first c then
        '(n, rest) ← scan_name t false; Ok (String c n, rest)
      else Raise (ReError "bad character in group name")
  end.

Definition name_defined (n : string) (ps : pstate) : bool :=
  existsb (fun p => String.eqb (fst p) n) (gnames ps).

Definition opengroup (name : option string) (ps : pstate) : result (nat * pstate) :=
  let gid := S (ngroups ps) in
  match name with
  | None => Ok (gid, {| ngroups := gid; gnames := gnames ps |})
  | Some n =>
      if name_defined n ps then Raise (ReError "redefinition of group name")
      else Ok (gid, {| ngroups := gid; gnames := gnames ps ++ [(n, gid)] |})
  end.

Definition cat (r1 r2 : regex) : regex :=
  match r1 with
  | Eps => r2
  | _ => Cat r1 r2
  end.

Definition close_branch (alts : option regex) (seq : regex) : regex :=
  match alts with
  | None => seq
  | Some a => Alt a seq
  end.

(** [sre_parse._parse_sub]: alternatives of sequences of quantified
    items, up to the end of the pattern or an unmatched closing
    parenthesis, which is left in the returned rest. *)
Fixpoint parse (fuel : nat) (s : string) (ps : pstate)
    (alts : option regex) (seq : regex) : result (regex * string * pstate) :=
  match fuel with
  | O => Raise (NotModelled "pattern too deep")
  | S fuel' =>
      let item (r : regex) (repeatable : bool) (rest : string) (ps' : pstate) :=
        '(r', rest') ← quantify r repeatable rest;
        parse fuel' rest' ps' alts (cat seq r') in
      match s with
      | EmptyString => Ok (close_branch alts seq, s, ps)
      | String ")" _ => Ok (close_branch alts seq, s, ps)
      | String "|" t => parse fuel' t ps (Some (close_branch alts seq)) Eps
      | String "." t => item AnyChar true t ps
      | String "^" t => item Bol false t ps
      | String "$" t => item Eol false t ps
      | String "[" t => '(r, rest) ← class t; item r true rest ps
      | String "\" (String c t) => r ← escape c; item r true t ps
      | String "\" EmptyString => Raise (ReError "bad escape (end of pattern)")
      | String "(" t =>
          '(wrap, body, ps1) ←
            match t with
            | String "?" (String ":" t') => Ok (fun r => r, t', ps)
            | String "?" (String "P" (String "<" t')) =>
                '(n, t'') ← scan_name t' true;
                '(gid, ps') ← opengroup (Some n) ps;
                Ok (Group gid, t'', ps')
            | String "?" _ => Raise (NotModelled "group extension")
            | _ =>
                '(gid, ps') ← opengroup None ps;
                Ok (Group gid, t, ps')
            end;
          '(r, rest, ps2) ← parse fuel' body ps1 None Eps;
          match rest with
          | String ")" rest' => item (wrap r) true rest' ps2
          | _ => Raise (ReError "missing ), unterminated subpattern")
          end
      | String c t =>
          q ← quantifier s;
          match q with
          | Some _ => Raise (ReError "nothing to repeat")
          | None => item (Lit c) true t ps
          end
      end
  end.

(** The flags the code passes to [re.compile]. *)
Record flags := { IGNORECASE : bool; MULTILINE : bool }.

Definition no_flags : flags := {| IGNORECASE := false; MULTILINE := false |}.

(** A compiled pattern object. *)
Record Pattern := {
  p_regex : regex;
  p_flags : flags;
  p_groups : nat;
  p_groupindex : list (string * nat) }.

(** [re.compile(pattern, flags)] *)
Definition compile (pattern : string) (fl : flags) : result Pattern :=
  '(r, rest, ps) ←
    parse (S (String.length pattern)) pattern
      {| ngroups := 0; gnames := [] |} None Eps;
  match rest with
  | EmptyString =>
      Ok {| p_regex := r; p_flags := fl;
            p_groups := ngroups ps; p_groupindex := gnames ps |}
  | _ => Raise (ReError "unbalanced parenthesis")
  end.

(** *** Matching

    A backtracking matcher in continuation-passing style: alternatives
    are tried left to right, greedy repeats take as many rounds as they
    can before giving rounds back, lazy ones as few. *)

Definition upper (c : ascii) : ascii :=
  if Str.in_range 97 122 c || Str.in_range 224 246 c || Str.in_range 248 254 c
  then ascii_of_N (Str.code c - 32) else c.

Definition char_eq (fl : flags) (c x : ascii) : bool :=
  if IGNORECASE fl then Ascii.eqb (Str.lower c) (Str.lower x)
  else Ascii.eqb c x.

Definition in_category (k : category) (x : ascii) : bool :=
  match k with
  | Digit => Str.isdecimal x
  | Space => Str.isspace x
  | Word => Str.isalnum x || Ascii.eqb x "_"
  end.

Definition in_item (x : ascii) (it : citem) : bool :=
  match it with
  | CLit c => Ascii.eqb c x
  | CRange lo hi => Str.in_range (Str.code lo) (Str.code hi) x
  | CCategory k negated => xorb negated (in_category k x)
  end.

Definition in_class (fl : flags) (negate : bool) (items : list citem)
    (x : ascii) : bool :=
  let hit y := existsb (in_item y) items in
  xorb negate
    (if IGNORECASE fl then hit x || hit (Str.lower x) || hit (upper x)
     else hit x).

Record mstate := {
  m_rest : string;                      (* the input still to read *)
  m_prev : option ascii;                (* the character just before it *)
  m_pos : nat;                          (* characters read by this attempt *)
  m_spans : list (nat * (nat * nat)) }. (* group number, start and end *)

Definition advance (st : mstate) (x : ascii) (t : string) : mstate :=
  {| m_rest := t; m_prev := Some x; m_pos := S (m_pos st);
     m_spans := m_spans st |}.

Definition set_span (i b : nat) (st : mstate) : mstate :=
  {| m_rest := m_rest st; m_prev := m_prev st; m_pos := m_pos st;
     m_spans := (i, (b, m_pos st)) :: m_spans st |}.

Definition at_bol (fl : flags) (st : mstate) : bool :=
  match m_prev st with
  | None => true
  | Some c => MULTILINE fl && Ascii.eqb c "010"
  end.

(** Without MULTILINE, [$] holds at the end and before a final newline. *)
Definition at_eol (fl : flags) (st : mstate) : bool :=
  match m_rest st with
  | EmptyString => true
  | String c t =>
      Ascii.eqb c "010"
      && (MULTILINE fl || match t with EmptyString => true | _ => false end)
  end.

Definition one_char (ok : ascii -> bool) (st : mstate)
    (k : mstate -> option mstate) : option mstate :=
  match m_rest st with
  | String x t => if ok x then k (advance st x t) else None
  | EmptyString => None
  end.

Definition or_else {A} (a : option A) (b : unit -> option A) : option A :=
  match a with
  | Some x => Some x
  | None => b tt
  end.

Section Repeat.
Variable step : mstate -> (mstate -> option mstate) -> option mstate.

(** The rounds a repeat must make. *)
Fixpoint rep_min (n : nat) (st : mstate) (k : mstate -> option mstate)
    : option mstate :=
  match n with
  | O => k st
  | S n' => step st (fun st' => rep_min n' st' k)
  end.

(** Up to [bound] further rounds; a round that reads nothing is the
    last one. *)
Fixpoint rep_opt (greedy : bool) (bound : nat) (st : mstate)
    (k : mstate -> option mstate) : option mstate :=
  match bound with
  | O => k st
  | S b =>
      let more (_ : unit) :=
        step st (fun st' =>
          if m_pos st' =? m_pos st then k st' else rep_opt greedy b st' k) in
      if greedy then or_else (more tt) (fun _ => k st)
      else or_else (k st) more
  end.
End Repeat.

Fixpoint m (fl : flags) (r : regex) (st : mstate)
    (k : mstate -> option mstate) {struct r} : option mstate :=
  match r with
  | Eps => k st
  | Lit c => one_char (char_eq fl c) st k
  | AnyChar => one_char (fun x => negb (Ascii.eqb x "010")) st k
  | In negate items => one_char (in_class fl negate items) st k
  | Bol => if at_bol fl st then k st else None
  | Eol => if at_eol fl st then k st else None
  | Cat r1 r2 => m fl r1 st (fun st' => m fl r2 st' k)
  | Alt r1 r2 => or_else (m fl r1 st k) (fun _ => m fl r2 st k)
  | Repeat lo hi greedy r' =>
      rep_min (m fl r') lo st (fun st' =>
        let bound :=
          match hi with
          | Some h => h - lo
          | None => S (String.length (m_rest st'))
          end in
        rep_opt (m fl r') greedy bound st' k)
  | Group i r' => m fl r' st (fun st' => k (set_span i (m_pos st) st'))
  end.

(** *** Match objects *)

Record Match := {
  group0 : string;                         (* [m.group(0)] *)
  groups : list (option string);           (* [m.groups()] *)
  groupdict : gmap string (option string)  (* [m.groupdict()] *) }.

Definition span_of (i : nat) (spans : list (nat * (nat * nat)))
    : option (nat * nat) :=
  snd <$> List.find (fun e => fst e =? i) spans.

Definition group_text (s : string) (st : mstate) (i : nat) : option string :=
  (fun be => Str.slice (fst be) (snd be) s) <$> span_of i (m_spans st).

Definition mk_match (p : Pattern) (s : string) (st : mstate) : Match :=
  {| group0 := Str.take (m_pos st) s;
     groups := group_text s st <$> seq 1 (p_groups p);
     groupdict :=
       list_to_map
         ((fun ni => (fst ni, group_text s st (snd ni))) <$> p_groupindex p) |}.

(** One attempt at the position that has [s] ahead of it.  With
    [must_advance] an empty match is refused and the matcher backtracks
    for one that reads something. *)
Definition attempt (p : Pattern) (must_advance : bool)
    (prev : option ascii) (s : string) : option mstate :=
  m (p_flags p) (p_regex p)
    {| m_rest := s; m_prev := prev; m_pos := 0; m_spans := [] |}
    (fun st => if must_advance && (m_pos st =? 0) then None else Some st).

Fixpoint search_from (p : Pattern) (prev : option ascii) (s : string)
    : option Match :=
  match attempt p false prev s with
  | Some st => Some (mk_match p s st)
  | None =>
      match s with
      | String c t => search_from p (Some c) t
      | EmptyString => None
      end
  end.

(** [pattern.search(string)]: the leftmost match. *)
Definition Pattern_search (p : Pattern) (s : string) : option Match :=
  search_from p None s.

(** [pattern.match(string)]: a match at the start only. *)
Definition Pattern_match (p : Pattern) (s : string) : option Match :=
  mk_match p s <$> attempt p false None s.

(** [pattern.sub(repl, string)] for a replacement without escapes: the
    matches are replaced from left to right; after an empty match the
    next one at the same position must read something. *)
Fixpoint sub_from (fuel : nat) (p : Pattern) (repl : string)
    (must_advance : bool) (prev : option ascii) (s : string) : string :=
  match fuel with
  | O => s
  | S fuel' =>
      match attempt p must_advance prev s with
      | Some st =>
          match m_pos st with
          | O => repl +:+ sub_from fuel' p repl true prev s
          | S _ =>
              repl +:+ sub_from fuel' p repl false (m_prev st) (m_rest st)
          end
      | None =>
          match s with
          | String c t => String c (sub_from fuel' p repl false (Some c) t)
          | EmptyString => EmptyString
          end
      end
  end.

Definition Pattern_sub (p : Pattern) (repl : string) (s : string) : string :=
  sub_from (2 * String.length s + 3) p repl false None s.

(** *** The module-level functions.  The pattern is compiled first; a
    subject that is [None] is then a [TypeError]. *)

Definition subject (v : option string) : result string :=
  match v with
  | Some s => Ok s
  | None => Raise TypeError
  end.

(** [re.search(pattern, string)] *)
Definition search (pattern : string) (v : option string)
    : result (option Match) :=
  p ← compile pattern no_flags; s ← subject v; Ok (Pattern_search p s).

(** [re.match(pattern, string)] *)
Definition match_ (pattern : string) (v : option string)
    : result (option Match) :=
  p ← compile pattern no_flags; s ← subject v; Ok (Pattern_match p s).

Fixpoint has_backslash (s : string) : bool :=
  match s with
  | String c t => Ascii.eqb c "\" || has_backslash t
  | EmptyString => false
  end.

(** [re.sub(pattern, repl, string)] *)
Definition sub (pattern repl : string) (v : option string) : result string :=
  p ← compile pattern no_flags;
  s ← subject v;
  if has_backslash repl then Raise (NotModelled "replacement template")
  else Ok (Pattern_sub p repl s).

End Re.

(** ** The value normalizer: [postprocess_value] *)

Definition postprocess_value (value : option string) (postprocess_type : string)
    : result (option string) :=
  if String.eqb postprocess_type "strip" then
    match value with
    | Some s => Ok (Some (Str.strip s))
    | None => Raise AttributeError
    end
  else if String.eqb postprocess_type "date" then
    date_match ← Re.search "(\d{2})[/-](\d{2})[/-](\d{4})" value;
    match date_match with
    | Some dm =>
        match Re.groups dm with
        | [Some month; Some day; Some year] =>
            Ok (Some (year +:+ "-" +:+ Str.zfill month 2
                      +:+ "-" +:+ Str.zfill day 2))
        | _ => Raise ValueError
        end
    | None => Ok value
    end
  else if String.eqb postprocess_type "currency" then
    value ← Re.sub "[\p{Sc}]" "" value;
    value ← Re.sub "[,\s]" "" (Some value);
    Ok (Some value)
  else Ok value.

(** ** The template extractor: [extract_fields] *)

Record FieldSpec := {
  pattern : string;
  postprocess : option string;   (* [None]: the key is absent *)
  required : option bool }.      (* [None]: the key is absent *)

Record Template := {
  name : string;
  fields : list (string * FieldSpec) }.

Record ExtractionResult := { value : string; confidence : Q }.

(** The two locals the loop updates. *)
Record state := {
  st_fields : gmap string ExtractionResult;
  st_confidences : list Q }.

Definition compile_flags : Re.flags :=
  {| Re.IGNORECASE := true; Re.MULTILINE := true |}.

(** [fields[field_name] = {...}; confidences.append(c)] *)
Definition record (field_name : string) (r : ExtractionResult) (c : Q)
    (st : state) : state :=
  {| st_fields := <[field_name := r]> (st_fields st);
     st_confidences := st_confidences st ++ [c] |}.

(** The branch shared by [else] and [except]. *)
Definition missing (field_name : string) (required : bool) (st : state) : state :=
  if required
  then record field_name {| value := ""; confidence := 0.0 |} 0.0%Q st
  else st.

(** The value of a match: the group named [value], else group 1, else the
    whole match. *)
Definition select_value (m : Re.Match) : option string :=
  match Re.groupdict m !! "value" with
  | Some v => v
  | None =>
      match Re.groups m with
      | g1 :: _ => g1
      | [] => Some (Re.group0 m)
      end
  end.

Definition matches (pattern : string) (v : option string) : result bool :=
  m ← Re.match_ pattern v; Ok (bool_decide (is_Some m)).

(** The [if]/[elif]/[elif] on the shape of the processed value. *)
Definition shape_bonus (processed_value : option string) (confidence : Q)
    : result Q :=
  looks_like_id ← matches "^[A-Z0-9\-_/]{3,}$" processed_value;
  if looks_like_id : bool then Ok (confidence + 0.1)%Q else
  looks_like_date ← matches "^\d{4}-\d{2}-\d{2}$" processed_value;
  if looks_like_date : bool then Ok (confidence + 0.1)%Q else
  looks_like_currency ← matches "^\d+(\.\d{2})?$" processed_value;
  if looks_like_currency : bool then Ok (confidence + 0.1)%Q else
  Ok confidence.

(** [sum(confidences)] and [x / len(confidences)] *)
Definition sum (l : list Q) : Q := fold_left Qplus l 0%Q.

Definition truediv (x : Q) (n : nat) : result Q :=
  match n with
  | O => Raise ZeroDivisionError
  | S _ => Ok (x / inject_Z (Z.of_nat n))%Q
  end.

(** [fields = {}; confidences = []] *)
Definition init : state := {| st_fields := ∅; st_confidences := [] |}.

Section Extractor.

(** The template's patterns are the caller's: what compiling one with
    [re.IGNORECASE | re.MULTILINE] and searching the text with it gives is
    left open, so that the results below hold for every pattern and every
    behaviour of the engine on it. *)
Context {regex : Type}.
Variable re_compile : string -> Re.flags -> result regex.
Variable regex_search : regex -> string -> result (option Re.Match).

(** The statements of the [try] block that can raise: compiling the
    pattern, searching the text and, on a match, selecting, normalizing
    and scoring the value.  [Ok None] is the [else] branch: no match. *)
Definition process_field (text : string) (field_config : FieldSpec)
    : result (option (string * Q)) :=
  let pattern := pattern field_config in
  let postprocess := default "strip" (postprocess field_config) in
  regex ← re_compile pattern compile_flags;
  match_ ← regex_search regex text;
  match match_ with
  | Some m =>
      let value := select_value m in
      processed_value ← postprocess_value value postprocess;
      let confidence := (if 30 <? String.length pattern then 0.8 else 0.6)%Q in
      confidence ← shape_bonus processed_value confidence;
      processed_value ← Re.subject processed_value;
      Ok (Some (processed_value, confidence))
  | None => Ok None
  end.

(** The body of [try].  Nothing is stored before the last statement that
    can raise, so the state the handler sees is the one the body began
    with. *)
Definition field_body (text field_name : string) (field_config : FieldSpec)
    (required : bool) (st : state) : result state :=
  found ← process_field text field_config;
  match found with
  | Some (processed_value, confidence) =>
      Ok (record field_name
            {| value := processed_value; confidence := Qmin 1.0 confidence |}
            confidence st)
  | None => Ok (missing field_name required st)
  end.

(** One round of the [for] loop. *)
Definition extract_field (text : string) (st : state)
    (item : string * FieldSpec) : state :=
  let '(field_name, field_config) := item in
  let required := default true (required field_config) in
  try_except (field_body text field_name field_config required st)
    (missing field_name required st).

Definition extract_loop (text : string) (items : list (string * FieldSpec))
    (st : state) : state :=
  fold_left (extract_field text) items st.

Definition extract_fields (text : string) (template : Template)
    : result (gmap string ExtractionResult * Q) :=
  let st := extract_loop text (fields template) init in
  let confidences := st_confidences st in
  average ←
    match confidences with
    | [] => Ok 0.0%Q
    | _ => truediv (sum confidences) (length confidences)
    end;
  Ok (st_fields st, average).

(** What one round of the loop stores for a field: the entry put in
    [fields] and the number appended to [confidences], or nothing. *)
Definition emitted (text : string) (field_config : FieldSpec)
    : option (ExtractionResult * Q) :=
  match process_field text field_config with
  | Ok (Some (processed_value, confidence)) =>
      Some ({| value := processed_value;
               confidence := Qmin 1.0 confidence |}, confidence)
  | _ =>
      if default true (required field_config)
      then Some ({| value := ""; confidence := 0.0 |}, 0.0%Q)
      else None
  end.

(** The numbers the loop appends to [confidences], in the order of the
    fields. *)
Definition appended (text : string) (l : list (string * FieldSpec)) : list Q :=
  omap (λ item, snd <$> emitted text item.2) l.

End Extractor.

(** The modelled fragment of [re] as the engine of the template's patterns. *)
Definition py_search (p : Re.Pattern) (text : string)
    : result (option Re.Match) :=
  Ok (Re.Pattern_search p text).

Definition run_extract_fields := extract_fields Re.compile py_search.

(** ** The statements of the specification, in its own words *)

(** The patterns of the source, compiled. *)
Definition empty_pattern : Re.Pattern :=
  {| Re.p_regex := Re.Eps; Re.p_flags := Re.no_flags;
     Re.p_groups := 0; Re.p_groupindex := [] |}.

Definition compiled (pattern : string) : Re.Pattern :=
  match Re.compile pattern Re.no_flags with
  | Ok p => p
  | Raise _ => empty_pattern
  end.

Definition date_pattern : Re.Pattern :=
  Eval vm_compute in compiled "(\d{2})[/-](\d{2})[/-](\d{4})".

(** "Two 2-digit groups then a 4-digit group", separated by a slash or a
    dash, at the head of [s]: month, day and year in this order. *)
Definition is_date_sep (c : ascii) : bool := Ascii.eqb "/" c || Ascii.eqb "-" c.

Definition date_at_head (s : string) : option (string * string * string) :=
  match s with
  | String m1 (String m2 (String p (String d1 (String d2 (String q
      (String y1 (String y2 (String y3 (String y4 _))))))))) =>
      if Str.isdecimal m1 && Str.isdecimal m2 && is_date_sep p
         && Str.isdecimal d1 && Str.isdecimal d2 && is_date_sep q
         && Str.isdecimal y1 && Str.isdecimal y2
         && Str.isdecimal y3 && Str.isdecimal y4
      then Some (String m1 (String m2 ""), String d1 (String d2 ""),
                 String y1 (String y2 (String y3 (String y4 ""))))
      else None
  | _ => None
  end.

(** The first such sub-pattern of [s], from the left. *)
Fixpoint first_date (s : string) : option (string * string * string) :=
  match date_at_head s with
  | Some d => Some d
  | None =>
      match s with
      | String _ t => first_date t
      | EmptyString => None
      end
  end.

(** Date normalization as the specification words it: the first
    sub-pattern rewritten to YYYY-MM-DD, else the raw value. *)
Definition spec_normalize_date (raw : string) : string :=
  match first_date raw with
  | Some (month, day, year) => year +:+ "-" +:+ month +:+ "-" +:+ day
  | None => raw
  end.

Definition date_groups (d : string * string * string) : list (option string) :=
  let '(month, day, year) := d in [Some month; Some day; Some year].

(** The three shape classes of the confidence bonus. *)
Definition identifier_shape : string := "^[A-Z0-9\-_/]{3,}$".
Definition iso_date_shape : string := "^\d{4}-\d{2}-\d{2}$".
Definition amount_shape : string := "^\d+(\.\d{2})?$".

Definition has_shape (shape v : string) : bool :=
  match Re.match_ shape (Some v) with
  | Ok (Some _) => true
  | _ => false
  end.

Definition any_shape (v : string) : bool :=
  has_shape identifier_shape v || has_shape iso_date_shape v
  || has_shape amount_shape v.

(** The confidence of a matched field as the specification words it. *)
Definition base_confidence (pattern : string) : Q :=
  if 30 <? String.length pattern then 0.8%Q else 0.6%Q.

Definition spec_bonus (processed : string) : Q :=
  if has_shape identifier_shape processed then 0.1%Q
  else if has_shape iso_date_shape processed then 0.1%Q
  else if has_shape amount_shape processed then 0.1%Q
  else 0%Q.

Definition spec_confidence (pattern processed : string) : Q :=
  Qmin 1 (base_confidence pattern + spec_bonus processed).

(** The arithmetic mean, [0.0] for no number at all. *)
Definition mean (l : list Q) : Q :=
  match l with
  | [] => 0.0%Q
  | _ => (sum l / inject_Z (Z.of_nat (length l)))%Q
  end.

(** The arithmetic mean in its own right: the total of the numbers, each
    added to the total of those after it, over how many they are. *)
Fixpoint total (l : list Q) : Q :=
  match l with
  | [] => 0%Q
  | x :: rest => (x + total rest)%Q
  end.

Definition arithmetic_mean (l : list Q) : Q :=
  match l with
  | [] => 0.0%Q
  | _ => (total l / inject_Z (Z.of_nat (length l)))%Q
  end.

(** The five values a confidence can take. *)
Definition confidence_value (c : Q) : Prop :=
  c = 0.0%Q ∨ c = 0.6%Q ∨ c = (0.6 + 0.1)%Q ∨ c = 0.8%Q ∨ c = (0.8 + 0.1)%Q.

(** A template's field names are the keys of a dictionary. *)
Definition well_formed (template : Template) : Prop :=
  NoDup (fields template).*1.

(** ** The scores in binary64

    The same scores computed with the floats of the source: [float_min a b]
    is Python's [min(a, b)], which keeps [a] unless [b] is smaller. *)

#[local] Set Warnings "-inexact-float".

Definition float_min (a b : float) : float :=
  if (b <? a)%float then b else a.

Definition float_score (long_pattern shaped : bool) : float :=
  let confidence := (if long_pattern then 0.8 else 0.6)%float in
  if shaped then (confidence + 0.1)%float else confidence.

#[local] Set Warnings "inexact-float".

(** The last line of [extract_fields] in binary64: [sum] adds the floats
    to [0] one after another from the left, as CPython 3.11 does, and the
    total is divided by [len(confidences)] as a float. *)
Definition float_of_nat (n : nat) : float :=
  PrimFloat.of_uint63 (Uint63.of_Z (Z.of_nat n)).

Definition float_sum (l : list float) : float :=
  fold_left PrimFloat.add l 0%float.

Definition float_average (confidences : list float) : float :=
  match confidences with
  | [] => 0%float
  | _ => (float_sum confidences / float_of_nat (length confidences))%float
  end.

(** The rational a finite float is. *)
Definition float_to_Q (f : float) : Q :=
  match Prim2SF f with
  | S754_finite s m e =>
      ((if s then -1 else 1) * inject_Z (Z.pos m) * Qpower 2 e)%Q
  | _ => 0%Q
  end.

(** ** A sample document and template

    The text of the sample invoice and the fields of the custom templates
    of [test_examples.py], with an optional field that the text lacks. *)

Definition sample_text : string :=
  "INVOICE
Invoice No: INV-2024-001
Date: 01/15/2024
Total: $1,250.00
Currency: USD".

Definition invoice_number_field : FieldSpec :=
  {| pattern := "Invoice No:\s*(?P<value>[A-Z0-9\-]+)";
     postprocess := Some "strip"; required := Some true |}.

Definition date_field : FieldSpec :=
  {| pattern := "Date:\s*(?P<value>\d{2}/\d{2}/\d{4})";
     postprocess := Some "date"; required := Some true |}.

Definition total_field : FieldSpec :=
  {| pattern := "Total:\s*(?P<value>\$[\d,]+\.\d+)";
     postprocess := Some "currency"; required := Some true |}.

Definition po_number_field : FieldSpec :=
  {| pattern := "PO\s*#\s*(\d+)";
     postprocess := None; required := Some false |}.

Definition sample_template : Template :=
  {| name := "custom_invoice";
     fields := [("invoice_number", invoice_number_field);
                ("date", date_field);
                ("total", total_field);
                ("po_number", po_number_field)] |}.

(** Three fields with short patterns that the sample invoice matches with
    values of the identifier shape: each scores 0.6 + 0.1. *)
Definition uniform_template : Template :=
  {| name := "uniform";
     fields :=
       [("invoice_number",
         {| pattern := "INV-\d{4}-\d{3}";
            postprocess := Some "strip"; required := Some true |});
        ("year",
         {| pattern := "\d{4}";
            postprocess := Some "strip"; required := Some true |});
        ("currency",
         {| pattern := "USD";
            postprocess := Some "strip"; required := Some true |})] |}.

Definition uniform_scores : list float :=
  [float_score false true; float_score false true; float_score false true].

(** The scores 0.9, 0.8 and 0.7 in two orders. *)
Definition scores_in_order : list float :=
  [float_score true true; float_score true false; float_score false true].

Definition scores_reordered : list float :=
  [float_score true false; float_score false true; float_score true true].

(** ** The built-in templates: [TEMPLATES]

    The pattern of the field [currency] of [invoice_v1] names the euro
    sign, U+20AC, a code point no [ascii] stands for: it is the parameter
    [euro].  The pound sign is code point 163. *)

Definition pound : string := String "163" "".

Definition invoice_v1 (euro : string) : Template :=
  {| name := "invoice_v1";
     fields :=
       [("invoice_number",
         {| pattern := "(?:Invoice\s*(?:No\.?|#)\s*)\s*(?P<value>[A-Z0-9\-_/]{3,})";
            postprocess := Some "strip"; required := Some true |});
        ("invoice_date",
         {| pattern := "(?:Date)[:\s]*?(?P<value>\d{2}[/-]\d{2}[/-]\d{4}|\d{4}[/-]\d{2}[/-]\d{2})";
            postprocess := Some "date"; required := Some true |});
        ("total_amount",
         {| pattern := "(?:Total)[:\s]*?(?P<value>[\p{Sc}]?\s?\d{1,3}(?:[\s,]\d{3})*(?:\.\d{2})?)";
            postprocess := Some "currency"; required := Some true |});
        ("currency",
         {| pattern := "(?P<value>USD|EUR|GBP|\$|" +:+ euro +:+ "|" +:+ pound +:+ ")";
            postprocess := Some "strip"; required := Some false |})] |}.

Definition receipt_v1 : Template :=
  {| name := "receipt_v1";
     fields :=
       [("store_name",
         {| pattern := "(?P<value>[A-Za-z\s&.,]{2,50})";
            postprocess := Some "strip"; required := Some true |});
        ("total_amount",
         {| pattern := "(?:Total|Amount)[:\s]*?(?P<value>[\p{Sc}]?\s?\d{1,3}(?:[\s,]\d{3})*(?:\.\d{2})?)";
            postprocess := Some "currency"; required := Some true |});
        ("date",
         {| pattern := "(?P<value>\d{2}[/-]\d{2}[/-]\d{4}|\d{4}[/-]\d{2}[/-]\d{2})";
            postprocess := Some "date"; required := Some true |})] |}.

(** The dictionary, in the order of its keys. *)
Definition TEMPLATES (euro : string) : list (string * Template) :=
  [("invoice_v1", invoice_v1 euro); ("receipt_v1", receipt_v1)].

(** [d.get(key)] on a dictionary kept as the list of its items. *)
Fixpoint dict_get {A} (key : string) (d : list (string * A)) : option A :=
  match d with
  | [] => None
  | (k, v) :: rest => if String.eqb k key then Some v else dict_get key rest
  end.

(** [list(TEMPLATES.keys())], the answer of [get_templates] *)
Definition get_templates (euro : string) : list string := (TEMPLATES euro).*1.

(** ** The HTTP layer

    Above [extract_fields] the code raises and catches [HTTPException] and
    the exceptions of its libraries: an [outcome] is a returned value or a
    raised [pyerr]. *)

Definition bytes : Type := list Byte.byte.

Inductive pyerr :=
| HTTPException (status_code : nat) (detail : string)
| JSONDecodeError (msg : string)
| KeyError (key : string)
| Builtin (e : exn)               (* the exceptions of the engine's model *)
| LibraryError (msg : string).    (* raised by pypdf, pdfplumber or the upload *)

Inductive outcome (A : Type) :=
| Return (a : A)
| Throw (e : pyerr).
Arguments Return {A} a.
Arguments Throw {A} e.

#[global] Instance outcome_ret : MRet outcome := fun A a => Return a.
#[global] Instance outcome_bind : MBind outcome := fun A B f c =>
  match c with
  | Return a => f a
  | Throw e => Throw e
  end.

Definition lift {A} (c : result A) : outcome A :=
  match c with
  | Ok a => Return a
  | Raise e => Throw (Builtin e)
  end.

(** ['\n'.join(parts)] *)
Fixpoint join (sep : string) (parts : list string) : string :=
  match parts with
  | [] => ""
  | [p] => p
  | p :: rest => p +:+ sep +:+ join sep rest
  end.

Definition newline : string := String "010" "".

(** A page of a PDF reader is what its [extract_text()] does: return a
    text or [None], or raise. *)
Definition page : Type := outcome (option string).

(** [if page_text:] *)
Definition page_text_parts (page_text : option string) : list string :=
  match page_text with
  | Some (String c t) => [String c t]
  | _ => []
  end.

(** The loop over the pages of pypdf: a page that raises is skipped. *)
Fixpoint pypdf_text_parts (pages : list page) : list string :=
  match pages with
  | [] => []
  | p :: rest =>
      match p with
      | Return page_text => page_text_parts page_text ++ pypdf_text_parts rest
      | Throw _ => pypdf_text_parts rest
      end
  end.

(** The loop over the pages of pdfplumber: a page that raises ends it. *)
Fixpoint pdfplumber_text_parts (pages : list page) : outcome (list string) :=
  match pages with
  | [] => Return []
  | p :: rest =>
      page_text ← p;
      parts ← pdfplumber_text_parts rest;
      Return (page_text_parts page_text ++ parts)
  end.

(** An uploaded file: its declared type and size, and what reading it
    gives. *)
Record UploadFile := {
  content_type : option string;
  size : option N;
  read : outcome bytes }.

(** The body of a successful answer; [template_used] is a string for
    [extract_data] and the template's own [name] entry for
    [extract_custom]. *)
Record Response (N : Type) := {
  template_used : N;
  response_fields : gmap string ExtractionResult;
  raw_text_chars : nat;
  confidence_avg : Q;
  file_hash : string }.
Arguments template_used {N} _.
Arguments response_fields {N} _.
Arguments raw_text_chars {N} _.
Arguments confidence_avg {N} _.
Arguments file_hash {N} _.

(** The two checks both endpoints begin with. *)
Definition check_upload (file : UploadFile) : outcome unit :=
  let not_pdf :=
    match content_type file with
    | None => true
    | Some "" => true
    | Some ct => negb (String.prefix "application/pdf" ct)
    end in
  if not_pdf then Throw (HTTPException 400 "File must be a PDF") else
  let too_large :=
    match size file with
    | None => false
    | Some n => negb (n =? 0)%N && (10 * 1024 * 1024 <? n)%N
    end in
  if too_large
  then Throw (HTTPException 413 "File too large. Maximum size is 10MB")
  else Return tt.

(** *** The values of [json.loads] and the operations the code applies to
    them *)

#[local] Set Warnings "-register-all".

Inductive json :=
| JNull
| JBool (b : bool)
| JInt (n : Z)
| JFloat (f : float)
| JStr (s : string)
| JList (l : list json)
| JDict (d : list (string * json)).  (* the items, keys distinct *)

#[local] Set Warnings "register-all".

(** [bool(j)] *)
Definition truthy (j : json) : bool :=
  match j with
  | JNull => false
  | JBool b => b
  | JInt n => negb (n =? 0)%Z
  | JFloat f => negb (f =? 0)%float
  | JStr s => negb (String.eqb s "")
  | JList l => match l with [] => false | _ => true end
  | JDict d => match d with [] => false | _ => true end
  end.

Fixpoint is_substring (needle hay : string) : bool :=
  String.prefix needle hay
  || match hay with
     | String _ t => is_substring needle t
     | EmptyString => false
     end.

Definition is_str (key : string) (j : json) : bool :=
  match j with
  | JStr s => String.eqb s key
  | _ => false
  end.

(** [key in obj] for a string [key] *)
Definition contains (key : string) (obj : json) : outcome bool :=
  match obj with
  | JDict d => Return (bool_decide (is_Some (dict_get key d)))
  | JList l => Return (existsb (is_str key) l)
  | JStr s => Return (is_substring key s)
  | _ => Throw (Builtin TypeError)
  end.

(** [obj[key]] for a string [key] *)
Definition getitem (obj : json) (key : string) : outcome json :=
  match obj with
  | JDict d =>
      match dict_get key d with
      | Some v => Return v
      | None => Throw (KeyError key)
      end
  | _ => Throw (Builtin TypeError)
  end.

(** [obj.get(key, default)] *)
Definition get (obj : json) (key : string) (default : json) : outcome json :=
  match obj with
  | JDict d => Return (from_option id default (dict_get key d))
  | _ => Throw (Builtin AttributeError)
  end.

(** [obj.items()] *)
Definition items (obj : json) : outcome (list (string * json)) :=
  match obj with
  | JDict d => Return d
  | _ => Throw (Builtin AttributeError)
  end.

(** A post-processing kind that is not a string equals none of the three
    kinds the normalizer knows, as the empty string does. *)
Definition kind_of (postprocess : json) : string :=
  match postprocess with
  | JStr k => k
  | _ => ""
  end.

(** A template as the dictionary [json.loads] returns for it. *)
Definition field_to_json (field_config : FieldSpec) : json :=
  JDict ([("pattern", JStr (pattern field_config))]
         ++ from_option (λ k, [("postprocess", JStr k)]) [] (postprocess field_config)
         ++ from_option (λ b, [("required", JBool b)]) [] (required field_config)).

Definition template_to_json (template : Template) : json :=
  JDict [("name", JStr (name template));
         ("fields",
          JDict ((λ item, (item.1, field_to_json item.2)) <$> fields template))].

Section Server.

(** The libraries the endpoints call, left open: the regex engine on the
    template's patterns, [str(e)], [hashlib.sha256(...).hexdigest()], the
    pages the two PDF readers find in a file, and [json.loads]. *)
Context {regex : Type}.
Variable re_compile : string -> Re.flags -> result regex.
Variable regex_search : regex -> string -> result (option Re.Match).
Variable exc_str : pyerr -> string.
Variable sha256_hexdigest : bytes -> string.
Variable pypdf_pages : bytes -> outcome (list page).
Variable pdfplumber_pages : bytes -> outcome (list page).
Variable json_loads : string -> outcome json.
Variable euro : string.

(** [extract_text_from_pdf]: the text of pypdf, or the text of pdfplumber
    when that has fewer than 100 characters once stripped; any exception
    becomes an [HTTPException] with status 400. *)
Definition extract_text_from_pdf (file_content : bytes) : outcome string :=
  let body : outcome string :=
    pages ← pypdf_pages file_content;
    let full_text := join newline (pypdf_text_parts pages) in
    if String.length (Str.strip full_text) <? 100 then
      pages ← pdfplumber_pages file_content;
      text_parts ← pdfplumber_text_parts pages;
      Return (join newline text_parts)
    else Return full_text in
  match body with
  | Return full_text => Return full_text
  | Throw e =>
      Throw (HTTPException 400
               ("Could not extract text from PDF: " +:+ exc_str e))
  end.

(** [except HTTPException: raise] then [except Exception as e: raise
    HTTPException(500, ...)] *)
Definition internal_error {A} (body : outcome A) : outcome A :=
  match body with
  | Return a => Return a
  | Throw (HTTPException status_code detail) =>
      Throw (HTTPException status_code detail)
  | Throw e =>
      Throw (HTTPException 500 ("Internal server error: " +:+ exc_str e))
  end.

(** The statements both endpoints share inside [try], up to the call of
    [extract_fields]: the hash of the file and its text. *)
Definition read_text (file : UploadFile) : outcome (string * string) :=
  file_content ← read file;
  let file_hash := sha256_hexdigest file_content in
  text ← extract_text_from_pdf file_content;
  if String.length (Str.strip text) <? 10
  then Throw (HTTPException 400 "PDF appears to be empty or unreadable")
  else Return (file_hash, text).

(** [POST /extract] *)
Definition extract_data (file : UploadFile) (template_name : string)
    : outcome (Response string) :=
  _ ← check_upload file;
  match dict_get template_name (TEMPLATES euro) with
  | None =>
      Throw (HTTPException 404
               ("Template '" +:+ template_name +:+ "' not found"))
  | Some template =>
      internal_error (
        '(file_hash, text) ← read_text file;
        '(fields, confidence_avg) ←
          lift (extract_fields re_compile regex_search text template);
        Return {| template_used := template_name;
                  response_fields := fields;
                  raw_text_chars := String.length text;
                  confidence_avg := confidence_avg;
                  file_hash := file_hash |})
  end.

(** [extract_fields] on a template that is any JSON value.  One round of
    its loop: the pattern is read outside [try]; a pattern that is not a
    string makes [re.compile] raise, which [except] catches. *)
Definition extract_field_json (text : string) (st : state)
    (field_name : string) (field_config : json) : outcome state :=
  pattern ← getitem field_config "pattern";
  postprocess ← get field_config "postprocess" (JStr "strip");
  required ← get field_config "required" (JBool true);
  match pattern with
  | JStr p =>
      Return (extract_field re_compile regex_search text st
                (field_name,
                 {| pattern := p;
                    postprocess := Some (kind_of postprocess);
                    required := Some (truthy required) |}))
  | _ => Return (missing field_name (truthy required) st)
  end.

Fixpoint extract_loop_json (text : string) (l : list (string * json))
    (st : state) : outcome state :=
  match l with
  | [] => Return st
  | (field_name, field_config) :: rest =>
      st' ← extract_field_json text st field_name field_config;
      extract_loop_json text rest st'
  end.

Definition extract_fields_json (text : string) (template : json)
    : outcome (gmap string ExtractionResult * Q) :=
  fields_obj ← getitem template "fields";
  l ← items fields_obj;
  st ← extract_loop_json text l init;
  let confidences := st_confidences st in
  average ←
    lift match confidences with
         | [] => Ok 0.0%Q
         | _ => truediv (sum confidences) (length confidences)
         end;
  Return (st_fields st, average).

(** The first [try] of [extract_custom]: decoding and the check of the
    two keys. *)
Definition parse_template (template_json : string) : outcome json :=
  let body : outcome json :=
    template ← json_loads template_json;
    has_name ← contains "name" template;
    incomplete ←
      (if negb has_name then Return true
       else has_fields ← contains "fields" template;
            Return (negb has_fields));
    if incomplete : bool
    then Throw (HTTPException 400 "Template must have 'name' and 'fields'")
    else Return template in
  match body with
  | Throw (JSONDecodeError _) =>
      Throw (HTTPException 400 "Invalid JSON in template")
  | other => other
  end.

(** [POST /extract-custom] *)
Definition extract_custom (file : UploadFile) (template_json : string)
    : outcome (Response json) :=
  _ ← check_upload file;
  template ← parse_template template_json;
  internal_error (
    '(file_hash, text) ← read_text file;
    '(fields, confidence_avg) ← extract_fields_json text template;
    template_name ← getitem template "name";
    Return {| template_used := template_name;
              response_fields := fields;
              raw_text_chars := String.length text;
              confidence_avg := confidence_avg;
              file_hash := file_hash |}).

End Server.

(** ** Auxiliary definitions of the further properties *)

Definition iso_pattern : Re.Pattern := Eval vm_compute in compiled iso_date_shape.

(** White space only; white space first; white space last. *)
Fixpoint all_space (s : string) : bool :=
  match s with
  | String c t => Str.isspace c && all_space t
  | EmptyString => true
  end.

Definition starts_with_space (s : string) : bool :=
  match s with
  | String c _ => Str.isspace c
  | EmptyString => false
  end.

Fixpoint ends_with_space (s : string) : bool :=
  match s with
  | String c EmptyString => Str.isspace c
  | String _ t => ends_with_space t
  | EmptyString => false
  end.

(** The sample template with its first two fields exchanged. *)
Definition sample_template_swapped : Template :=
  {| name := "custom_invoice";
     fields := [("date", date_field);
                ("invoice_number", invoice_number_field);
                ("total", total_field);
                ("po_number", po_number_field)] |}.

(** ** Auxiliary definitions of the properties of the HTTP layer *)

(** A page pypdf cannot read, or reads as nothing. *)
Definition blank_page (p : page) : Prop :=
  match p with
  | Return (Some (String _ _)) => False
  | _ => True
  end.

(** What an upload declares: a PDF content type, a size above the limit. *)
Definition declared_pdf (file : UploadFile) : Prop :=
  ∃ ct, content_type file = Some ct ∧ String.prefix "application/pdf" ct = true.

Definition declared_large (file : UploadFile) : Prop :=
  ∃ n, size file = Some n ∧ (10 * 1024 * 1024 < n)%N.

(** A page without text: its text is missing or white space only, or, for
    pypdf, it cannot be read. *)
Definition no_text (p : page) : Prop :=
  match p with
  | Return (Some s) => all_space s = true
  | _ => True
  end.

Definition readable (p : page) : Prop := ∃ t, p = Return t.

(** A JSON value that is no container: [in] raises [TypeError] on it. *)
Definition scalar (j : json) : Prop :=
  match j with
  | JNull | JBool _ | JInt _ | JFloat _ => True
  | _ => False
  end.

(** A field configuration that is a dictionary with a pattern. *)
Definition has_pattern (field_config : json) : Prop :=
  ∃ d p, field_config = JDict d ∧ dict_get "pattern" d = Some p.

(** The response of [extract_custom] that corresponds to one of
    [extract_data]: the name becomes the string under the template's key
    [name]. *)
Definition as_custom (r : Response string) : Response json :=
  {| template_used := JStr (template_used r);
     response_fields := response_fields r;
     raw_text_chars := raw_text_chars r;
     confidence_avg := confidence_avg r;
     file_hash := file_hash r |}.


(** ** A sample request

    Stand-ins for the libraries, to run the endpoints on the sample
    invoice: readers that find its text on one page, or a page that cannot
    be decoded; a decoder that knows four documents. *)

Definition sample_exc_str (e : pyerr) : string :=
  match e with
  | HTTPException _ detail => detail
  | JSONDecodeError msg => msg
  | KeyError key => "'" +:+ key +:+ "'"
  | Builtin _ => "builtin exception"
  | LibraryError msg => msg
  end.

Definition sample_digest (file_content : bytes) : string :=
  "9f86d081884c7d659a2feaa0c55ad015a3bf4f1b2b0b822cd15d6c15b0f00a08".

Definition sample_reader (file_content : bytes) : outcome (list page) :=
  Return [Return (Some sample_text)].

Definition damaged_page : page := Throw (LibraryError "cannot decode page").

Definition damaged_reader (file_content : bytes) : outcome (list page) :=
  Return ([Return (Some sample_text)] ++ damaged_page :: []).

Definition scanned_reader (file_content : bytes) : outcome (list page) :=
  Return [Return None; Return (Some "   ")].

Definition empty_reader (file_content : bytes) : outcome (list page) :=
  Return [].

Definition sample_bytes : bytes := [Byte.x25; Byte.x50; Byte.x44; Byte.x46].

Definition sample_upload : UploadFile :=
  {| content_type := Some "application/pdf";
     size := Some 4%N;
     read := Return sample_bytes |}.

Definition large_upload : UploadFile :=
  {| content_type := Some "application/pdf";
     size := Some (10 * 1024 * 1024 + 1)%N;
     read := Return sample_bytes |}.

Definition quoted (s : string) : string := String "034" s +:+ String "034" "".

Definition field_text (field_name pattern kind : string) : string :=
  quoted field_name +:+ ": {" +:+ quoted "pattern" +:+ ": " +:+ quoted pattern
  +:+ ", " +:+ quoted "postprocess" +:+ ": " +:+ quoted kind
  +:+ ", " +:+ quoted "required" +:+ ": true}".

Definition list_document : string :=
  "[" +:+ quoted "name" +:+ ", " +:+ quoted "fields" +:+ "]".

Definition notes_document : string :=
  "{" +:+ quoted "name" +:+ ": " +:+ quoted "notes" +:+ ", "
  +:+ quoted "fields" +:+ ": {" +:+ quoted "note" +:+ ": {"
  +:+ quoted "required" +:+ ": false}}}".

Definition receipt_document : string :=
  "{" +:+ quoted "name" +:+ ": " +:+ quoted "receipt_v1" +:+ ", "
  +:+ quoted "fields" +:+ ": {"
  +:+ field_text "store_name" "(?P<value>[A-Za-z\\s&.,]{2,50})" "strip"
  +:+ ", "
  +:+ field_text "total_amount"
        "(?:Total|Amount)[:\\s]*?(?P<value>[\\p{Sc}]?\\s?\\d{1,3}(?:[\\s,]\\d{3})*(?:\\.\\d{2})?)"
        "currency"
  +:+ ", "
  +:+ field_text "date"
        "(?P<value>\\d{2}[/-]\\d{2}[/-]\\d{4}|\\d{4}[/-]\\d{2}[/-]\\d{2})"
        "date"
  +:+ "}}".

Definition sample_documents : list (string * json) :=
  [("null", JNull);
   (list_document, JList [JStr "name"; JStr "fields"]);
   (notes_document,
    JDict [("name", JStr "notes");
           ("fields", JDict [("note", JDict [("required", JBool false)])])]);
   (receipt_document, template_to_json receipt_v1)].

Definition sample_loads (template_json : string) : outcome json :=
  match dict_get template_json sample_documents with
  | Some j => Return j
  | None => Throw (JSONDecodeError "Expecting value")
  end.

(** A template whose only field is optional and absent from the sample. *)
Definition optional_template : Template :=
  {| name := "purchase_order"; fields := [("po_number", po_number_field)] |}.

(** The response to the sample request with the template [receipt_v1]. *)
Definition sample_response : Response string :=
  {| template_used := "receipt_v1";
     response_fields :=
       st_fields (extract_loop Re.compile py_search sample_text
                    (fields receipt_v1) init);
     raw_text_chars := String.length sample_text;
     confidence_avg :=
       mean (appended Re.compile py_search sample_text (fields receipt_v1));
     file_hash := sample_digest sample_bytes |}.

(** * Properties *)

(** ** Strings *)

Lemma lstrip_clean s :
  match Str.lstrip s with
  | String c _ => Str.isspace c = false
  | EmptyString => True
  end.
Proof.
  induction s as [|c s IH]; cbn; [done|].
  destruct (Str.isspace c) eqn:E; [exact IH | exact E].
Qed.

Lemma lstrip_id c s : Str.isspace c = false → Str.lstrip (String c s) = String c s.
Proof. intros E. cbn. by rewrite E. Qed.

Lemma rstrip_head c s :
  Str.isspace c = false → ∃ t, Str.rstrip (String c s) = String c t.
Proof. intros E. cbn. rewrite E. destruct (Str.rstrip s); eauto. Qed.

Lemma rstrip_idem s : Str.rstrip (Str.rstrip s) = Str.rstrip s.
Proof.
  induction s as [|c s IH]; cbn; [done|].
  destruct (Str.rstrip s) as [|c' t] eqn:E.
  - destruct (Str.isspace c) eqn:Ec; cbn; [done | by rewrite Ec].
  - cbn [Str.rstrip] in *. by rewrite IH.
Qed.

Lemma strip_idem s : Str.strip (Str.strip s) = Str.strip s.
Proof.
  unfold Str.strip. pose proof (lstrip_clean s) as H.
  destruct (Str.lstrip s) as [|c t]; [done|].
  destruct (rstrip_head c t H) as [t' E]. rewrite E.
  rewrite (lstrip_id _ _ H), <- E. apply rstrip_idem.
Qed.

Lemma zfill_two a b : Str.zfill (String a (String b "")) 2 = String a (String b "").
Proof. unfold Str.zfill. cbn. by destruct (_ || _). Qed.

(** ** The date pattern of the normalizer *)

Lemma compile_date :
  Re.compile "(\d{2})[/-](\d{2})[/-](\d{4})" Re.no_flags = Ok date_pattern.
Proof. vm_compute. reflexivity. Qed.

Lemma one_char_cons ok x t prev pos spans k :
  Re.one_char ok
    {| Re.m_rest := String x t; Re.m_prev := prev;
       Re.m_pos := pos; Re.m_spans := spans |} k
  = if ok x
    then k {| Re.m_rest := t; Re.m_prev := Some x;
              Re.m_pos := S pos; Re.m_spans := spans |}
    else None.
Proof. reflexivity. Qed.

Lemma one_char_nil ok prev pos spans k :
  Re.one_char ok
    {| Re.m_rest := ""; Re.m_prev := prev;
       Re.m_pos := pos; Re.m_spans := spans |} k = None.
Proof. reflexivity. Qed.

Lemma in_class_digit c :
  Re.in_class Re.no_flags false [Re.CCategory Re.Digit false] c = Str.isdecimal c.
Proof. unfold Re.in_class. cbn. by destruct (Str.isdecimal c). Qed.

Lemma in_class_sep c :
  Re.in_class Re.no_flags false [Re.CLit "/"; Re.CLit "-"] c = is_date_sep c.
Proof.
  unfold Re.in_class, is_date_sep.
  cbn [Re.IGNORECASE Re.no_flags existsb Re.in_item].
  by destruct (Ascii.eqb "/" c), (Ascii.eqb "-" c).
Qed.

(** Runs the matcher on a string whose first characters are variables,
    one character test after the other. *)
Ltac run_matcher :=
  repeat first
    [ progress (unfold Re.set_span;
                cbn [Re.m_pos Re.m_rest Re.m_prev Re.m_spans])
    | rewrite one_char_nil
    | rewrite one_char_cons, ?in_class_digit, ?in_class_sep;
      match goal with
      | |- context [if ?b then _ else _] => destruct b; cbn [andb]
      end ];
  try reflexivity.

(** At one position the matcher finds what the specification describes. *)
Lemma attempt_date prev s :
  Re.groups <$> (Re.mk_match date_pattern s
                   <$> Re.attempt date_pattern false prev s)
  = date_groups <$> date_at_head s.
Proof.
  unfold Re.attempt, date_pattern.
  cbn [Re.p_regex Re.p_flags Re.m Re.rep_min Re.rep_opt Nat.sub].
  fold Re.no_flags.
  do 10 (destruct s as [|? s]; [solve [run_matcher]|]).
  unfold date_at_head. run_matcher.
Qed.

(** The leftmost match is the first sub-pattern. *)
Lemma search_date prev s :
  Re.groups <$> Re.search_from date_pattern prev s
  = date_groups <$> first_date s.
Proof.
  revert prev. induction s as [|c s IH]; intros prev.
  - pose proof (attempt_date prev "") as H. cbn [Re.search_from first_date].
    destruct (Re.attempt date_pattern false prev ""); [exact H | done].
  - pose proof (attempt_date prev (String c s)) as H.
    cbn [Re.search_from first_date].
    destruct (Re.attempt date_pattern false prev (String c s)),
      (date_at_head (String c s)); done.
Qed.

Lemma date_at_head_zfill s month day year :
  date_at_head s = Some (month, day, year) →
  Str.zfill month 2 = month ∧ Str.zfill day 2 = day.
Proof.
  unfold date_at_head.
  do 10 (destruct s as [|? s]; [done|]).
  destruct (_ && _); [|done]. intros [= <- <- <-]. split; apply zfill_two.
Qed.

Lemma first_date_zfill s month day year :
  first_date s = Some (month, day, year) →
  Str.zfill month 2 = month ∧ Str.zfill day 2 = day.
Proof.
  induction s as [|c s IH]; cbn [first_date].
  - destruct (date_at_head "") eqn:E; [|done].
    intros [= ->]. eauto using date_at_head_zfill.
  - destruct (date_at_head (String c s)) eqn:E; [|exact IH].
    intros [= ->]. eauto using date_at_head_zfill.
Qed.

(** ** The value normalizer *)

Lemma postprocess_value_strip v :
  postprocess_value (Some v) "strip" = Ok (Some (Str.strip v)).
Proof. reflexivity. Qed.

Lemma postprocess_value_date raw :
  postprocess_value (Some raw) "date" = Ok (Some (spec_normalize_date raw)).
Proof.
  unfold postprocess_value, Re.search, spec_normalize_date.
  cbn [String.eqb Ascii.eqb Bool.eqb]. rewrite compile_date.
  cbn [mbind result_bind Re.subject]. unfold Re.Pattern_search.
  pose proof (search_date None raw) as H.
  destruct (Re.search_from date_pattern None raw) as [dm|],
    (first_date raw) as [[[month day] year]|] eqn:E; try done.
  cbn in H. injection H as ->.
  by destruct (first_date_zfill _ _ _ _ E) as [-> ->].
Qed.

Lemma compile_currency_symbols :
  Re.compile "[\p{Sc}]" Re.no_flags = Raise (ReError "bad escape \p").
Proof. vm_compute. reflexivity. Qed.

Lemma postprocess_value_currency v :
  postprocess_value v "currency" = Raise (ReError "bad escape \p").
Proof.
  unfold postprocess_value, Re.sub. cbn [String.eqb Ascii.eqb Bool.eqb].
  by rewrite compile_currency_symbols.
Qed.

(** A kind that is none of the three leaves the value as it is. *)
Lemma postprocess_value_other v kind :
  kind ≠ "strip" → kind ≠ "date" → kind ≠ "currency" →
  postprocess_value v kind = Ok v.
Proof.
  intros H1 H2 H3. unfold postprocess_value.
  by rewrite (proj2 (String.eqb_neq _ _) H1), (proj2 (String.eqb_neq _ _) H2),
    (proj2 (String.eqb_neq _ _) H3).
Qed.

(** Every kind but [currency] returns a string for a string. *)
Lemma postprocess_value_returns raw kind :
  kind ≠ "currency" → ∃ s, postprocess_value (Some raw) kind = Ok (Some s).
Proof.
  intros H.
  destruct (decide (kind = "strip")) as [->|H1];
    [by eexists; apply postprocess_value_strip|].
  destruct (decide (kind = "date")) as [->|H2];
    [by eexists; apply postprocess_value_date|].
  eexists. by apply postprocess_value_other.
Qed.

(** C1.  The normalizer is not total: for the kind [currency] it raises
    [re.error] on every raw value, because the first substitution's pattern
    uses the escape [\p], which [re] rejects. *)
Theorem C1_currency_kind_raises :
  ∀ raw, postprocess_value (Some raw) "currency"
         = Raise (ReError "bad escape \p").
Proof. intros raw. apply postprocess_value_currency. Qed.

(** C7.  [postprocess_value("$1,250.00", "currency")] raises instead of
    returning ["1250.00"]; the second substitution on its own removes the
    comma and keeps the currency sign. *)
Theorem C7_currency_example_raises :
  postprocess_value (Some "$1,250.00") "currency"
  = Raise (ReError "bad escape \p")
  ∧ Re.sub "[,\s]" "" (Some "$1,250.00") = Ok "$1250.00".
Proof. split; [apply postprocess_value_currency | by vm_compute]. Qed.

(** C8.  Date normalization returns the first two-digit, two-digit,
    four-digit sub-pattern as year-month-day, the first group being the
    month and the second the day, and returns a raw value without such a
    sub-pattern unchanged. *)
Theorem C8_date_normalization :
  postprocess_value (Some "Date: 01/15/2024") "date" = Ok (Some "2024-01-15")
  ∧ (∀ raw, postprocess_value (Some raw) "date"
            = Ok (Some (spec_normalize_date raw)))
  ∧ (∀ raw, first_date raw = None →
            postprocess_value (Some raw) "date" = Ok (Some raw)).
Proof.
  split; [by vm_compute|]. split; [apply postprocess_value_date|].
  intros raw H. rewrite postprocess_value_date.
  unfold spec_normalize_date. by rewrite H.
Qed.

Lemma C8_date_normalization_witness :
  first_date "Due on receipt" = None
  ∧ postprocess_value (Some "Due on receipt") "date"
    = Ok (Some "Due on receipt").
Proof.
  split; [by vm_compute|].
  apply (proj2 (proj2 C8_date_normalization) "Due on receipt").
  by vm_compute.
Defined.

(** C9.  Stripping twice is stripping once; the kind [currency] raises on
    an already bare amount instead of returning it. *)
Theorem C9_strip_idempotent_currency_raises :
  (∀ v, ∃ s, postprocess_value (Some v) "strip" = Ok (Some s)
             ∧ postprocess_value (Some s) "strip" = Ok (Some s))
  ∧ postprocess_value (Some "1250.00") "currency"
    = Raise (ReError "bad escape \p").
Proof.
  split; [|apply postprocess_value_currency].
  intros v. exists (Str.strip v).
  by rewrite !postprocess_value_strip, strip_idem.
Qed.

(** ** Rationals *)

Lemma inject_succ n :
  (inject_Z (Z.of_nat (S n)) == inject_Z (Z.of_nat n) + 1)%Q.
Proof. by rewrite Nat2Z.inj_succ, <- Z.add_1_r, inject_Z_plus. Qed.

Lemma inject_pos n : (0 < inject_Z (Z.of_nat (S n)))%Q.
Proof.
  rewrite inject_succ. assert (0 <= inject_Z (Z.of_nat n))%Q; [|lra].
  change 0%Q with (inject_Z 0). rewrite <- Zle_Qle. lia.
Qed.

Lemma fold_sum_bounds l a :
  Forall (λ x, 0 <= x <= 1)%Q l →
  (a <= fold_left Qplus l a <= a + inject_Z (Z.of_nat (length l)))%Q.
Proof.
  intros H. revert a. induction H as [|x l [Hx0 Hx1] _ IH]; intros a.
  - cbn [fold_left length]. change (inject_Z (Z.of_nat 0)) with 0%Q. lra.
  - cbn [fold_left length]. specialize (IH (a + x)%Q).
    rewrite inject_succ. lra.
Qed.

Lemma mean_bounds l :
  Forall (λ x, 0 <= x <= 1)%Q l → (0 <= mean l <= 1)%Q.
Proof.
  intros H. destruct l as [|x l]; [by vm_compute|].
  unfold mean, sum. pose proof (fold_sum_bounds _ 0%Q H) as [H0 H1].
  pose proof (inject_pos (length l)) as Hpos.
  cbn [length] in *. split.
  - apply Qle_shift_div_l; [done | lra].
  - apply Qle_shift_div_r; [done | lra].
Qed.

(** The sum the code takes from the left is the total, and its average
    the arithmetic mean. *)
Lemma fold_sum_total l a : (fold_left Qplus l a == a + total l)%Q.
Proof.
  revert a. induction l as [|x l IH]; intros a; cbn [fold_left total].
  - ring.
  - rewrite IH. ring.
Qed.

Lemma mean_arithmetic l : (mean l == arithmetic_mean l)%Q.
Proof.
  destruct l as [|x l]; [reflexivity|]. unfold mean, arithmetic_mean, sum.
  rewrite fold_sum_total. apply Qdiv_comp; [ring | reflexivity].
Qed.

(** ** The shape tests and the confidence of a matched field *)

Lemma matches_has_shape shape v :
  is_ok (Re.compile shape Re.no_flags) = true →
  matches shape (Some v) = Ok (has_shape shape v).
Proof.
  unfold matches, has_shape, Re.match_.
  destruct (Re.compile shape Re.no_flags) as [p|]; [intros _ | done].
  cbn [mbind result_bind Re.subject].
  by destruct (Re.Pattern_match p v).
Qed.

Lemma matches_none shape : ∃ e, matches shape None = Raise e.
Proof.
  unfold matches, Re.match_.
  destruct (Re.compile shape Re.no_flags); cbn; eauto.
Qed.

Lemma shape_bonus_some v c :
  shape_bonus (Some v) c = Ok (if any_shape v then c + 0.1 else c)%Q.
Proof.
  unfold shape_bonus, any_shape.
  rewrite !matches_has_shape by (by vm_compute).
  cbn [mbind result_bind].
  fold identifier_shape iso_date_shape amount_shape.
  by destruct (has_shape identifier_shape v), (has_shape iso_date_shape v),
    (has_shape amount_shape v).
Qed.

Lemma shape_bonus_none c : ∃ e, shape_bonus None c = Raise e.
Proof.
  unfold shape_bonus.
  destruct (matches_none "^[A-Z0-9\-_/]{3,}$") as [e ->]. cbn. eauto.
Qed.

Lemma spec_bonus_any v : spec_bonus v = if any_shape v then 0.1%Q else 0%Q.
Proof.
  unfold spec_bonus, any_shape.
  by destruct (has_shape identifier_shape v), (has_shape iso_date_shape v),
    (has_shape amount_shape v).
Qed.

(** ** The loop of the extractor *)

Section ExtractorFacts.

Context {regex : Type}.
Variable re_compile : string → Re.flags → result regex.
Variable regex_search : regex → string → result (option Re.Match).

#[local] Abbreviation process_field := (process_field re_compile regex_search).
#[local] Abbreviation emitted := (emitted re_compile regex_search).
#[local] Abbreviation extract_field := (extract_field re_compile regex_search).
#[local] Abbreviation extract_loop := (extract_loop re_compile regex_search).
#[local] Abbreviation extract_fields := (extract_fields re_compile regex_search).
#[local] Abbreviation appended := (appended re_compile regex_search).

(** A field that is processed without error has a string for its
    normalized value and the confidence of the specification before the
    clamp. *)
Lemma process_field_some text cfg pv c :
  process_field text cfg = Ok (Some (pv, c)) →
  ∃ re m,
    re_compile (pattern cfg) compile_flags = Ok re
    ∧ regex_search re text = Ok (Some m)
    ∧ postprocess_value (select_value m) (default "strip" (postprocess cfg))
      = Ok (Some pv)
    ∧ c = (if any_shape pv then base_confidence (pattern cfg) + 0.1
           else base_confidence (pattern cfg))%Q.
Proof.
  unfold process_field.
  destruct (re_compile (pattern cfg) compile_flags) as [re|] eqn:Hre; [|done].
  cbn [mbind result_bind].
  destruct (regex_search re text) as [[m|]|] eqn:Hm; [|done..].
  cbn [mbind result_bind].
  destruct (postprocess_value (select_value m)
              (default "strip" (postprocess cfg))) as [[v|]|] eqn:Hv;
    [| |done]; cbn [mbind result_bind].
  - rewrite shape_bonus_some. cbn [mbind result_bind Re.subject].
    intros [= <- <-]. by exists re, m.
  - by destruct (shape_bonus_none
                   (if 30 <? String.length (pattern cfg) then 0.8 else 0.6)%Q)
      as [e ->].
Qed.

Lemma process_field_match text cfg re m pv :
  re_compile (pattern cfg) compile_flags = Ok re →
  regex_search re text = Ok (Some m) →
  postprocess_value (select_value m) (default "strip" (postprocess cfg))
  = Ok (Some pv) →
  process_field text cfg
  = Ok (Some (pv, if any_shape pv then base_confidence (pattern cfg) + 0.1
                  else base_confidence (pattern cfg)))%Q.
Proof.
  intros H1 H2 H3. unfold process_field.
  rewrite H1. cbn [mbind result_bind]. rewrite H2. cbn [mbind result_bind].
  rewrite H3. cbn [mbind result_bind]. by rewrite shape_bonus_some.
Qed.

Lemma process_field_confidence text cfg pv c :
  process_field text cfg = Ok (Some (pv, c)) →
  c = 0.6%Q ∨ c = (0.6 + 0.1)%Q ∨ c = 0.8%Q ∨ c = (0.8 + 0.1)%Q.
Proof.
  intros (re & m & _ & _ & _ & ->)%process_field_some.
  unfold base_confidence.
  destruct (any_shape pv), (30 <? String.length (pattern cfg)); auto.
Qed.

Lemma confidence_value_clamp c :
  confidence_value c → Qmin 1.0 c = c ∧ (0 <= c <= 1)%Q.
Proof.
  intros [-> | [-> | [-> | [-> | ->]]]]; (split; [reflexivity | by vm_compute]).
Qed.

Lemma emitted_value text cfg r c :
  emitted text cfg = Some (r, c) → confidence r = c ∧ confidence_value c.
Proof.
  unfold emitted.
  destruct (process_field text cfg) as [[[pv c']|]|] eqn:E.
  - intros [= <- <-]. cbn.
    apply process_field_confidence in E.
    assert (confidence_value c') as Hc
      by (unfold confidence_value; tauto).
    split; [by apply confidence_value_clamp | done].
  - destruct (default true (required cfg)); [|done].
    intros [= <- <-]. split; [done | by left].
  - destruct (default true (required cfg)); [|done].
    intros [= <- <-]. split; [done | by left].
Qed.

(** One round of the loop stores what [emitted] says. *)
Lemma extract_field_emitted text st n cfg :
  extract_field text st (n, cfg)
  = match emitted text cfg with
    | Some (r, c) => record n r c st
    | None => st
    end.
Proof.
  unfold extract_field, field_body, emitted, try_except, missing.
  destruct (process_field text cfg) as [[[pv c]|]|]; cbn;
    by destruct (default true (required cfg)).
Qed.

Lemma extract_loop_cons text item l st :
  extract_loop text (item :: l) st
  = extract_loop text l (extract_field text st item).
Proof. reflexivity. Qed.

Lemma extract_loop_app text l1 l2 st :
  extract_loop text (l1 ++ l2) st
  = extract_loop text l2 (extract_loop text l1 st).
Proof. apply fold_left_app. Qed.

Lemma extract_loop_confidences text l st :
  st_confidences (extract_loop text l st)
  = st_confidences st ++ appended text l.
Proof.
  revert st. induction l as [|[n cfg] l IH]; intros st.
  - by rewrite app_nil_r.
  - rewrite extract_loop_cons, IH, extract_field_emitted.
    unfold appended. cbn [omap list_omap snd].
    destruct (emitted text cfg) as [[r c]|]; cbn; [|done].
    by rewrite <- app_assoc.
Qed.

Lemma extract_field_lookup_ne text st n cfg n' :
  n ≠ n' →
  st_fields (extract_field text st (n, cfg)) !! n' = st_fields st !! n'.
Proof.
  intros H. rewrite extract_field_emitted.
  destruct (emitted text cfg) as [[r c]|]; [|done].
  cbn. by rewrite lookup_insert_ne.
Qed.

Lemma extract_loop_lookup_notin text l st n :
  n ∉ l.*1 →
  st_fields (extract_loop text l st) !! n = st_fields st !! n.
Proof.
  revert st. induction l as [|[n0 cfg] l IH]; intros st H; [done|].
  cbn in H. apply not_elem_of_cons in H as [H1 H2].
  rewrite extract_loop_cons, IH by done.
  by apply extract_field_lookup_ne.
Qed.

Lemma extract_loop_lookup_in text l st n cfg :
  NoDup l.*1 → (n, cfg) ∈ l →
  st_fields (extract_loop text l st) !! n
  = match emitted text cfg with
    | Some (r, _) => Some r
    | None => st_fields st !! n
    end.
Proof.
  revert st. induction l as [|[n0 cfg0] l IH]; intros st Hnd Hin.
  { by apply elem_of_nil in Hin. }
  cbn in Hnd. apply NoDup_cons in Hnd as [Hn0 Hnd].
  rewrite extract_loop_cons.
  apply elem_of_cons in Hin as [[= <- <-]|Hin].
  - rewrite extract_loop_lookup_notin by done.
    rewrite extract_field_emitted.
    destruct (emitted text cfg) as [[r c]|]; [|done].
    cbn. by rewrite lookup_insert_eq.
  - rewrite IH by done.
    assert (n0 ≠ n) as Hne.
    { intros ->. apply Hn0. apply (list_elem_of_fmap_2 fst) in Hin. done. }
    destruct (emitted text cfg) as [[r c]|]; [done|].
    by apply extract_field_lookup_ne.
Qed.

(** The guarded division never raises: the function returns the map and
    the mean of the appended numbers. *)
Lemma extract_fields_returns text template :
  extract_fields text template
  = Ok (st_fields (extract_loop text (fields template) init),
        mean (appended text (fields template))).
Proof.
  unfold extract_fields.
  rewrite (extract_loop_confidences text (fields template) init).
  cbn [st_confidences init app].
  by destruct (appended text (fields template)).
Qed.

Lemma appended_values text l :
  Forall confidence_value (appended text l).
Proof.
  unfold appended. apply list.Forall_forall. intros c H.
  apply list_elem_of_omap in H as ([n cfg] & _ & H).
  cbn in H. destruct (emitted text cfg) as [[r c']|] eqn:E; [|done].
  injection H as <-. by apply emitted_value in E as [_ ?].
Qed.

Lemma result_lookup_in text template n cfg :
  well_formed template → (n, cfg) ∈ fields template →
  st_fields (extract_loop text (fields template) init) !! n
  = fst <$> emitted text cfg.
Proof.
  intros Hwf Hin.
  rewrite (extract_loop_lookup_in text _ init n cfg Hwf Hin).
  by destruct (emitted text cfg) as [[r c]|].
Qed.

Lemma confidence_values_bounded l :
  Forall confidence_value l → Forall (λ x, 0 <= x <= 1)%Q l.
Proof.
  intros H. eapply Forall_impl; [exact H|].
  intros c Hc. by apply confidence_value_clamp.
Qed.

(** A field of kind [currency] never yields a value: when its pattern
    matches, the normalizer raises. *)
Lemma currency_field_fails text cfg :
  postprocess cfg = Some "currency" →
  process_field text cfg = Ok None ∨ (∃ e, process_field text cfg = Raise e).
Proof.
  intros Hk. unfold process_field. rewrite Hk.
  destruct (re_compile (pattern cfg) compile_flags) as [re|]; [|by eauto].
  cbn [mbind result_bind].
  destruct (regex_search re text) as [[m|]|]; [|by eauto..].
  cbn [mbind result_bind default]. rewrite postprocess_value_currency.
  by eauto.
Qed.

(** C2.  For every template and text, [extract_fields] returns: a map of
    field results and an average confidence between 0 and 1. *)
Theorem C2_extract_fields_total text template :
  ∃ fs avg,
    extract_fields text template = Ok (fs, avg) ∧ (0 <= avg <= 1)%Q.
Proof.
  rewrite extract_fields_returns. eexists _, _. split; [done|].
  apply mean_bounds, confidence_values_bounded, appended_values.
Qed.

(** What the result map holds for a field that matched and was
    normalized without error. *)
Lemma matched_field_result text template n cfg re m pv :
  well_formed template → (n, cfg) ∈ fields template →
  re_compile (pattern cfg) compile_flags = Ok re →
  regex_search re text = Ok (Some m) →
  postprocess_value (select_value m) (default "strip" (postprocess cfg))
  = Ok (Some pv) →
  ∃ fs avg r,
    extract_fields text template = Ok (fs, avg)
    ∧ fs !! n = Some r
    ∧ value r = pv
    ∧ confidence r
      = (if any_shape pv then base_confidence (pattern cfg) + 0.1
         else base_confidence (pattern cfg))%Q.
Proof.
  intros Hwf Hin Hre Hm Hpv.
  pose proof (process_field_match text cfg re m pv Hre Hm Hpv) as Hp.
  rewrite extract_fields_returns. eexists _, _, _. split; [done|].
  rewrite (result_lookup_in _ _ _ _ Hwf Hin).
  unfold emitted. rewrite Hp. cbn. split; [done|]. split; [done|].
  unfold base_confidence.
  by destruct (any_shape pv), (30 <? String.length (pattern cfg)).
Qed.

(** A field whose pattern matches and whose value the normalizer returns
    is scored 0.8 when its pattern is longer than 30 characters and 0.6
    otherwise, plus 0.1 once when the normalized value has the identifier,
    ISO date or amount shape, tested in this order; the stored score is
    clamped and never exceeds 1. *)
Lemma matched_field_confidence text template n cfg re m pv :
  well_formed template → (n, cfg) ∈ fields template →
  re_compile (pattern cfg) compile_flags = Ok re →
  regex_search re text = Ok (Some m) →
  postprocess_value (select_value m) (default "strip" (postprocess cfg))
  = Ok (Some pv) →
  ∃ fs avg r,
    extract_fields text template = Ok (fs, avg)
    ∧ fs !! n = Some r
    ∧ (confidence r == spec_confidence (pattern cfg) pv)%Q
    ∧ (confidence r = base_confidence (pattern cfg)
       ∨ confidence r = (base_confidence (pattern cfg) + 0.1)%Q)
    ∧ (confidence r <= 1)%Q.
Proof.
  intros Hwf Hin Hre Hm Hpv.
  destruct (matched_field_result _ _ _ _ _ _ _ Hwf Hin Hre Hm Hpv)
    as (fs & avg & r & Hfs & Hr & _ & Hc).
  exists fs, avg, r. split; [done|]. split; [done|]. rewrite Hc.
  unfold spec_confidence. rewrite spec_bonus_any. unfold base_confidence.
  destruct (any_shape pv), (30 <? String.length (pattern cfg));
    (split; [by vm_compute|]); (split; [auto | by vm_compute]).
Qed.

(** C4.  A field whose pattern does not match, or whose processing
    raises, is stored with an empty value and confidence 0 and adds 0 to
    the averaged numbers when it is required; it is left out of the map and
    adds nothing when it is not.  The averaged numbers are those of the
    fields before it, then its own, then those of the fields after it. *)
Theorem C4_unmatched_field text template l1 n cfg l2 :
  well_formed template →
  fields template = l1 ++ (n, cfg) :: l2 →
  process_field text cfg = Ok None ∨ (∃ e, process_field text cfg = Raise e) →
  let before := st_confidences (extract_loop text l1 init) in
  let after := st_confidences (extract_loop text l2 init) in
  ∃ fs avg,
    extract_fields text template = Ok (fs, avg)
    ∧ (if default true (required cfg)
       then fs !! n = Some {| value := ""; confidence := 0.0 |}
            ∧ avg = mean (before ++ [0.0%Q] ++ after)
       else fs !! n = None
            ∧ avg = mean (before ++ after)).
Proof.
  intros Hwf Hl Hp before after.
  assert ((n, cfg) ∈ fields template) as Hin.
  { rewrite Hl. apply elem_of_app. right. apply elem_of_cons. by left. }
  assert (emitted text cfg
          = if default true (required cfg)
            then Some ({| value := ""; confidence := 0.0 |}, 0.0%Q)
            else None) as He.
  { unfold emitted. by destruct Hp as [-> | [e ->]]. }
  rewrite extract_fields_returns. eexists _, _. split; [done|].
  rewrite (result_lookup_in _ _ _ _ Hwf Hin), He, Hl.
  unfold before, after. rewrite !extract_loop_confidences.
  cbn [st_confidences init app].
  unfold appended. rewrite omap_app. cbn [omap list_omap snd].
  rewrite He. by destruct (default true (required cfg)).
Qed.

Lemma appended_stored text template :
  well_formed template →
  appended text (fields template)
  = omap (λ item,
            confidence
              <$> st_fields (extract_loop text (fields template) init) !! item.1)
      (fields template).
Proof.
  intros Hwf. unfold appended. apply list_omap_ext, Forall_Forall2_diag.
  apply list.Forall_forall. intros [n cfg] Hin. cbn [fst snd].
  rewrite (result_lookup_in _ _ _ _ Hwf Hin).
  destruct (emitted text cfg) as [[r c]|] eqn:E; [|done].
  cbn. by apply emitted_value in E as [-> _].
Qed.

(** C5.  In exact arithmetic the average is the arithmetic mean of the
    confidences recorded in the result map, taken over the fields of the
    template in order, a field absent from the map adding nothing; it is 0
    when no field was recorded. *)
Theorem C5_average_is_mean text template :
  well_formed template →
  ∃ fs avg,
    extract_fields text template = Ok (fs, avg)
    ∧ (avg == arithmetic_mean
                (omap (λ item, confidence <$> fs !! item.1) (fields template)))%Q
    ∧ (fs = ∅ → avg = 0.0%Q).
Proof.
  intros Hwf. rewrite extract_fields_returns. eexists _, _. split; [done|].
  rewrite (appended_stored _ _ Hwf). split; [apply mean_arithmetic|].
  intros ->. induction (fields template) as [|item l IH]; [done|].
  cbn [omap list_omap]. by rewrite lookup_empty.
Qed.

(** C6.  The raw value of a match is the group named [value] when the
    pattern has one, else group 1 when there is a group, else the whole
    match; what the normalizer returns for it with the field's kind is the
    value stored for the field. *)
Theorem C6_value_selection text template n cfg re m :
  well_formed template → (n, cfg) ∈ fields template →
  re_compile (pattern cfg) compile_flags = Ok re →
  regex_search re text = Ok (Some m) →
  let stored raw :=
    ∀ pv,
      postprocess_value raw (default "strip" (postprocess cfg)) = Ok (Some pv) →
      ∃ fs avg r,
        extract_fields text template = Ok (fs, avg)
        ∧ fs !! n = Some r ∧ value r = pv in
  (∀ v, Re.groupdict m !! "value" = Some v → stored v)
  ∧ (∀ g rest, Re.groupdict m !! "value" = None →
               Re.groups m = g :: rest → stored g)
  ∧ (Re.groupdict m !! "value" = None →
     Re.groups m = [] → stored (Some (Re.group0 m))).
Proof.
  intros Hwf Hin Hre Hm stored.
  assert (∀ pv,
    postprocess_value (select_value m) (default "strip" (postprocess cfg))
    = Ok (Some pv) →
    ∃ fs avg r, extract_fields text template = Ok (fs, avg)
                ∧ fs !! n = Some r ∧ value r = pv) as H.
  { intros pv Hpv.
    destruct (matched_field_result _ _ _ _ _ _ _ Hwf Hin Hre Hm Hpv)
      as (fs & avg & r & ? & ? & ? & _).
    by exists fs, avg, r. }
  unfold stored, select_value in *. split; [|split].
  - intros v Hv. by rewrite Hv in H.
  - intros g rest Hv Hg. by rewrite Hv, Hg in H.
  - intros Hv Hg. by rewrite Hv, Hg in H.
Qed.

Lemma extract_loop_values text l st :
  map_Forall (λ _ r, confidence_value (confidence r)) (st_fields st) →
  map_Forall (λ _ r, confidence_value (confidence r))
    (st_fields (extract_loop text l st)).
Proof.
  revert st. induction l as [|[n cfg] l IH]; intros st H; [done|].
  rewrite extract_loop_cons. apply IH. rewrite extract_field_emitted.
  destruct (emitted text cfg) as [[r c]|] eqn:E; [|done].
  cbn. apply map_Forall_insert_2; [|done].
  apply emitted_value in E as [-> ?]. done.
Qed.

(** C10.  Every confidence in the result map is one of 0.0, 0.6,
    0.6 + 0.1, 0.8 and 0.8 + 0.1: the score of a matched field is at most
    1 before the clamp, which leaves it as it is, and each round of the
    loop appends to the averaged list the very number it stores. *)
Theorem C10_confidence_values text :
  (∀ cfg pv c, process_field text cfg = Ok (Some (pv, c)) →
               (c <= 1)%Q ∧ Qmin 1.0 c = c)
  ∧ (∀ st n cfg,
       extract_field text st (n, cfg) = st
       ∨ ∃ r, extract_field text st (n, cfg) = record n r (confidence r) st
              ∧ confidence_value (confidence r))
  ∧ (∀ template fs avg n r,
       extract_fields text template = Ok (fs, avg) →
       fs !! n = Some r → confidence_value (confidence r)).
Proof.
  split; [|split].
  - intros cfg pv c H%process_field_confidence.
    assert (confidence_value c) as Hc by (unfold confidence_value; tauto).
    apply confidence_value_clamp in Hc as [? [_ ?]]. done.
  - intros st n cfg. rewrite extract_field_emitted.
    destruct (emitted text cfg) as [[r c]|] eqn:E; [|by left].
    right. exists r. by apply emitted_value in E as [-> ?].
  - intros template fs avg n r. rewrite extract_fields_returns.
    intros [= <- _] Hr.
    by apply (extract_loop_values text (fields template) init
                (map_Forall_empty _) n r).
Qed.

End ExtractorFacts.

(** ** The sample invoice, with the modelled [re] as engine *)

Lemma sample_well_formed : well_formed sample_template.
Proof. apply (bool_decide_unpack _). by vm_compute. Qed.

Lemma matched_field_confidence_sample :
  ∃ fs avg r,
    run_extract_fields sample_text sample_template = Ok (fs, avg)
    ∧ fs !! "invoice_number" = Some r
    ∧ (confidence r
       == spec_confidence (pattern invoice_number_field) "INV-2024-001")%Q
    ∧ (confidence r = base_confidence (pattern invoice_number_field)
       ∨ confidence r = (base_confidence (pattern invoice_number_field) + 0.1)%Q)
    ∧ (confidence r <= 1)%Q.
Proof.
  eapply (matched_field_confidence Re.compile py_search sample_text
            sample_template "invoice_number" invoice_number_field).
  - apply (bool_decide_unpack _). by vm_compute.
  - apply list_elem_of_here.
  - by vm_compute.
  - by vm_compute.
  - by vm_compute.
Defined.

Lemma C4_unmatched_field_witness :
  ∃ fs avg,
    run_extract_fields sample_text sample_template = Ok (fs, avg)
    ∧ fs !! "po_number" = None
    ∧ avg = mean (st_confidences
                    (extract_loop Re.compile py_search sample_text
                       [("invoice_number", invoice_number_field);
                        ("date", date_field); ("total", total_field)] init)
                  ++ st_confidences
                       (extract_loop Re.compile py_search sample_text [] init)).
Proof.
  apply (C4_unmatched_field Re.compile py_search sample_text sample_template
           [("invoice_number", invoice_number_field);
            ("date", date_field); ("total", total_field)]
           "po_number" po_number_field []).
  - apply (bool_decide_unpack _). by vm_compute.
  - reflexivity.
  - left. by vm_compute.
Defined.

Lemma C5_average_is_mean_witness :
  ∃ fs avg,
    run_extract_fields sample_text sample_template = Ok (fs, avg)
    ∧ (avg == arithmetic_mean
                (omap (λ item, confidence <$> fs !! item.1)
                   (fields sample_template)))%Q
    ∧ (fs = ∅ → avg = 0.0%Q).
Proof.
  apply (C5_average_is_mean Re.compile py_search sample_text sample_template).
  apply (bool_decide_unpack _). by vm_compute.
Defined.

(** C5, in binary64.  The three fields of [uniform_template] are matched
    on the sample invoice and each is recorded with the score 0.6 + 0.1;
    the code adds the three floats from the left and divides by 3, and what
    it returns is smaller than each of them: it is not their arithmetic
    mean. *)
Lemma C5_average_below_equal_confidences :
  appended Re.compile py_search sample_text (fields uniform_template)
  = [(0.6 + 0.1)%Q; (0.6 + 0.1)%Q; (0.6 + 0.1)%Q]
  ∧ (float_average uniform_scores <? float_score false true)%float = true
  ∧ ¬ (float_to_Q (float_average uniform_scores)
       == arithmetic_mean (float_to_Q <$> uniform_scores))%Q.
Proof.
  split; [by vm_compute|]. split; [by vm_compute|].
  intros H. by vm_compute in H.
Qed.

Lemma C6_value_selection_witness :
  ∃ fs avg r,
    run_extract_fields sample_text sample_template = Ok (fs, avg)
    ∧ fs !! "invoice_number" = Some r ∧ value r = "INV-2024-001".
Proof.
  assert (∃ re m,
    Re.compile (pattern invoice_number_field) compile_flags = Ok re
    ∧ py_search re sample_text = Ok (Some m)
    ∧ Re.groupdict m !! "value" = Some (Some "INV-2024-001"))
    as (re & m & Hre & Hm & Hv).
  { eexists _, _. split; [by vm_compute|]. split; by vm_compute. }
  assert (well_formed sample_template) as Hwf.
  { apply (bool_decide_unpack _). by vm_compute. }
  destruct (C6_value_selection Re.compile py_search sample_text
              sample_template "invoice_number" invoice_number_field re m
              Hwf (list_elem_of_here _ _) Hre Hm) as [H _].
  apply (H _ Hv). by vm_compute.
Defined.

Lemma C10_confidence_values_witness :
  ∃ r,
    st_fields (extract_loop Re.compile py_search sample_text
                 (fields sample_template) init) !! "date" = Some r
    ∧ confidence_value (confidence r).
Proof.
  eexists. split; [by vm_compute|].
  eapply (proj2 (proj2 (C10_confidence_values Re.compile py_search sample_text))
            sample_template _ _ "date").
  - apply extract_fields_returns.
  - by vm_compute.
Defined.

(** C3.  On the sample invoice the pattern of the field [total] of the
    custom template matches, with the value [$1,250.00]; the pattern is
    longer than 30 characters and the normalized amount [1250.00] has the
    amount shape, so the score described is 0.8 + 0.1.  The normalizer
    raises on the kind [currency], and the field is stored empty with
    confidence 0. *)
Theorem C3_matched_currency_field_scored_zero :
  (re ← Re.compile (pattern total_field) compile_flags;
   match_ ← py_search re sample_text;
   Ok (select_value <$> (match_ : option Re.Match)))
  = (Ok (Some (Some "$1,250.00")) : result (option (option string)))
  ∧ postprocess total_field = Some "currency"
  ∧ 30 < String.length (pattern total_field)
  ∧ (spec_confidence (pattern total_field) "1250.00" == 0.9)%Q
  ∧ ∃ fs avg,
      run_extract_fields sample_text sample_template = Ok (fs, avg)
      ∧ fs !! "total" = Some {| value := ""; confidence := 0.0 |}.
Proof.
  split; [by vm_compute|].
  split; [done|]. split; [vm_compute; lia|]. split; [by vm_compute|].
  unfold run_extract_fields. rewrite extract_fields_returns.
  eexists _, _. split; [done|]. by vm_compute.
Qed.

(** ** The sample invoice, evaluated in full *)

Example sample_results :
  match run_extract_fields sample_text sample_template with
  | Ok (fs, avg) =>
      fs !! "invoice_number"
      = Some {| value := "INV-2024-001"; confidence := 0.8 + 0.1 |}
      ∧ fs !! "date" = Some {| value := "2024-01-15"; confidence := 0.8 + 0.1 |}
      ∧ fs !! "total" = Some {| value := ""; confidence := 0.0 |}
      ∧ fs !! "po_number" = None
      ∧ Qeq_bool avg 0.6 = true
  | Raise _ => False
  end.
Proof. vm_compute. tauto. Qed.

(** A value with both the identifier and the ISO date shape earns one
    bonus. *)
Example one_bonus_for_two_shapes :
  has_shape identifier_shape "2024-01-15" = true
  ∧ has_shape iso_date_shape "2024-01-15" = true
  ∧ shape_bonus (Some "2024-01-15") 0.8 = Ok (0.8 + 0.1)%Q.
Proof. by vm_compute. Qed.

(** ** The patterns of the source in the modelled [re] *)

Example identifier_shape_examples :
  has_shape identifier_shape "INV-2024-001" = true
  ∧ has_shape identifier_shape "inv-2024-001" = false
  ∧ has_shape identifier_shape "AB" = false.
Proof. by vm_compute. Qed.

(** Without MULTILINE, [$] also holds before a final newline. *)
Example iso_date_shape_examples :
  has_shape iso_date_shape "2024-01-15" = true
  ∧ has_shape iso_date_shape (String.append "2024-01-15" (String "010" "")) = true
  ∧ has_shape iso_date_shape "2024-1-15" = false.
Proof. by vm_compute. Qed.

Example amount_shape_examples :
  has_shape amount_shape "1250.00" = true
  ∧ has_shape amount_shape "1250" = true
  ∧ has_shape amount_shape "1250.0" = false
  ∧ has_shape amount_shape "$1250.00" = false.
Proof. by vm_compute. Qed.

Example date_search_example :
  Re.groups <$> Re.Pattern_search date_pattern "Date: 01/15/2024"
  = Some [Some "01"; Some "15"; Some "2024"].
Proof. by vm_compute. Qed.

(** ** The scores in binary64 *)

(** With the floats of the source too, every score is below one and the
    clamp returns it as it is. *)
Lemma float_clamp_identity long_pattern shaped :
  float_min 1.0 (float_score long_pattern shaped)
  = float_score long_pattern shaped
  ∧ (float_score long_pattern shaped <? 1.0)%float = true.
Proof. by destruct long_pattern, shaped; vm_compute. Qed.

(** * Further properties of the code *)

(** ** The value normalizer *)

Lemma compile_iso : Re.compile iso_date_shape Re.no_flags = Ok iso_pattern.
Proof. by vm_compute. Qed.

Lemma digit_not_sep c : Str.isdecimal c = true → is_date_sep c = false.
Proof. destruct c as [[] [] [] [] [] [] [] []]; by vm_compute. Qed.

Lemma date_at_head_digits s month day year :
  date_at_head s = Some (month, day, year) →
  ∃ m1 m2 d1 d2 y1 y2 y3 y4,
    month = String m1 (String m2 "") ∧ day = String d1 (String d2 "")
    ∧ year = String y1 (String y2 (String y3 (String y4 "")))
    ∧ Forall (λ c, Str.isdecimal c = true) [m1; m2; d1; d2; y1; y2; y3; y4].
Proof.
  unfold date_at_head.
  do 10 (destruct s as [|? s]; [done|]).
  destruct (_ && _) eqn:E; [|done]. intros [= <- <- <-].
  do 9 (apply andb_prop in E as [E ?]).
  eexists _, _, _, _, _, _, _, _. do 3 (split; [done|]).
  repeat constructor; done.
Qed.

Lemma first_date_digits s month day year :
  first_date s = Some (month, day, year) →
  ∃ m1 m2 d1 d2 y1 y2 y3 y4,
    month = String m1 (String m2 "") ∧ day = String d1 (String d2 "")
    ∧ year = String y1 (String y2 (String y3 (String y4 "")))
    ∧ Forall (λ c, Str.isdecimal c = true) [m1; m2; d1; d2; y1; y2; y3; y4].
Proof.
  induction s as [|c s IH]; cbn [first_date].
  - destruct (date_at_head "") eqn:E; [|done].
    intros [= ->]. eauto using date_at_head_digits.
  - destruct (date_at_head (String c s)) eqn:E; [|exact IH].
    intros [= ->]. eauto using date_at_head_digits.
Qed.

Lemma iso_first_date m1 m2 d1 d2 y1 y2 y3 y4 :
  Str.isdecimal y3 = true →
  first_date (String y1 (String y2 (String y3 (String y4 (String "-"
    (String m1 (String m2 (String "-" (String d1 (String d2 "")))))))))) = None.
Proof.
  intros H%digit_not_sep. cbn [first_date date_at_head]. rewrite H.
  by rewrite !andb_false_r.
Qed.

Lemma spec_normalize_date_idem raw :
  spec_normalize_date (spec_normalize_date raw) = spec_normalize_date raw.
Proof.
  unfold spec_normalize_date at 2 3.
  destruct (first_date raw) as [[[month day] year]|] eqn:E.
  - destruct (first_date_digits _ _ _ _ E)
      as (m1 & m2 & d1 & d2 & y1 & y2 & y3 & y4 & -> & -> & -> & H).
    unfold spec_normalize_date. cbv [String.append].
    rewrite iso_first_date; [done|].
    by repeat (apply Forall_cons in H as [? H]).
  - unfold spec_normalize_date. by rewrite E.
Qed.


Lemma iso_shape_of_date m1 m2 d1 d2 y1 y2 y3 y4 :
  Forall (λ c, Str.isdecimal c = true) [m1; m2; d1; d2; y1; y2; y3; y4] →
  has_shape iso_date_shape
    (String y1 (String y2 (String y3 (String y4 (String "-"
      (String m1 (String m2 (String "-" (String d1 (String d2 "")))))))))) = true.
Proof.
  intros H. repeat (apply Forall_cons in H as [? H]).
  unfold has_shape, Re.match_. rewrite compile_iso.
  cbn [mbind result_bind Re.subject].
  unfold Re.Pattern_match, Re.attempt, iso_pattern.
  cbn [Re.p_regex Re.p_flags Re.m Re.rep_min Re.rep_opt Nat.sub Re.at_bol
       Re.m_prev].
  fold Re.no_flags. rewrite !one_char_cons, !in_class_digit.
  by repeat match goal with H : Str.isdecimal _ = true |- _ => rewrite H; clear H end.
Qed.

Lemma normalized_date_shape raw :
  first_date raw ≠ None → has_shape iso_date_shape (spec_normalize_date raw) = true.
Proof.
  intros H. unfold spec_normalize_date.
  destruct (first_date raw) as [[[month day] year]|] eqn:E; [|done].
  destruct (first_date_digits _ _ _ _ E)
    as (m1 & m2 & d1 & d2 & y1 & y2 & y3 & y4 & -> & -> & -> & Hd).
  cbv [String.append]. by apply iso_shape_of_date.
Qed.

Lemma lstrip_split s :
  ∃ pre, s = pre +:+ Str.lstrip s ∧ all_space pre = true.
Proof.
  induction s as [|c s (pre & IH & Hpre)]; [by exists ""|].
  cbn [Str.lstrip]. destruct (Str.isspace c) eqn:E.
  - exists (String c pre). cbn. rewrite E, Hpre. split; [|done].
    change (String c pre +:+ Str.lstrip s) with (String c (pre +:+ Str.lstrip s)).
    by rewrite <- IH.
  - by exists "".
Qed.

Lemma rstrip_split s :
  ∃ post, s = Str.rstrip s +:+ post ∧ all_space post = true
          ∧ ends_with_space (Str.rstrip s) = false.
Proof.
  induction s as [|c s (post & IH & Hpost & Hend)]; [by exists ""|].
  cbn [Str.rstrip]. destruct (Str.rstrip s) as [|c' t] eqn:E.
  - change ("" +:+ post) with post in IH. subst post.
    destruct (Str.isspace c) eqn:Ec.
    + exists (String c s). cbn [all_space ends_with_space]. by rewrite Ec, Hpost.
    + exists s. cbn [ends_with_space]. by rewrite Ec.
  - exists post. split; [|split; [done|]].
    + change (String c (String c' t) +:+ post) with (String c (String c' t +:+ post)).
      by rewrite <- IH.
    + exact Hend.
Qed.

Lemma strip_starts_clean s : starts_with_space (Str.strip s) = false.
Proof.
  unfold Str.strip. pose proof (lstrip_clean s) as H.
  destruct (Str.lstrip s) as [|c t]; [done|].
  by destruct (rstrip_head c t H) as [t' ->].
Qed.

Lemma strip_split v :
  ∃ pre post,
    v = pre +:+ Str.strip v +:+ post
    ∧ all_space pre = true ∧ all_space post = true
    ∧ starts_with_space (Str.strip v) = false
    ∧ ends_with_space (Str.strip v) = false.
Proof.
  destruct (lstrip_split v) as (pre & Hv & Hpre).
  destruct (rstrip_split (Str.lstrip v)) as (post & Hl & Hpost & Hend).
  exists pre, post. unfold Str.strip at 1.
  rewrite <- Hl, <- Hv. auto using strip_starts_clean.
Qed.

(** X1.  Date normalization is idempotent: normalizing a normalized value
    returns it unchanged. *)
Theorem X1_date_idempotent raw :
  ∃ s, postprocess_value (Some raw) "date" = Ok (Some s)
       ∧ postprocess_value (Some s) "date" = Ok (Some s).
Proof.
  exists (spec_normalize_date raw).
  by rewrite !postprocess_value_date, spec_normalize_date_idem.
Qed.

(** X3.  The kind [strip] removes white space at both ends and nothing
    else: the raw value is the result between two runs of white space, and
    the result neither starts nor ends with white space. *)
Theorem X3_strip_removes_only_outer_space v :
  ∃ pre s post,
    postprocess_value (Some v) "strip" = Ok (Some s)
    ∧ v = pre +:+ s +:+ post
    ∧ all_space pre = true ∧ all_space post = true
    ∧ starts_with_space s = false ∧ ends_with_space s = false.
Proof.
  destruct (strip_split v) as (pre & post & H).
  exists pre, (Str.strip v), post. by rewrite postprocess_value_strip.
Qed.

(** X4.  For every kind but [currency] the normalizer returns a string,
    and for a kind that is none of [strip], [date] and [currency] it
    returns the raw value. *)
Theorem X4_normalizer_other_kinds raw kind :
  kind ≠ "currency" →
  ∃ s, postprocess_value (Some raw) kind = Ok (Some s)
       ∧ (kind ≠ "strip" → kind ≠ "date" → s = raw).
Proof.
  intros H.
  destruct (decide (kind = "strip")) as [->|H1];
    [by eexists; split; [apply postprocess_value_strip|]|].
  destruct (decide (kind = "date")) as [->|H2];
    [by eexists; split; [apply postprocess_value_date|]|].
  exists raw. by rewrite postprocess_value_other.
Qed.

Lemma X4_normalizer_other_kinds_witness :
  ∃ s, postprocess_value (Some " Acme Corp ") "upper" = Ok (Some s)
       ∧ ("upper" ≠ "strip" → "upper" ≠ "date" → s = " Acme Corp ").
Proof. by apply (X4_normalizer_other_kinds " Acme Corp " "upper"). Defined.

(** ** The template extractor *)

Lemma confidence_value_le c : confidence_value c → (c <= 0.9)%Q.
Proof. intros [-> | [-> | [-> | [-> | ->]]]]; by vm_compute. Qed.

Section MoreExtractorFacts.

Context {regex : Type}.
Variable re_compile : string → Re.flags → result regex.
Variable regex_search : regex → string → result (option Re.Match).

#[local] Abbreviation process_field := (process_field re_compile regex_search).
#[local] Abbreviation emitted := (emitted re_compile regex_search).
#[local] Abbreviation extract_field := (extract_field re_compile regex_search).
#[local] Abbreviation extract_loop := (extract_loop re_compile regex_search).
#[local] Abbreviation extract_fields := (extract_fields re_compile regex_search).
#[local] Abbreviation appended := (appended re_compile regex_search).

(** X2.  A field of kind [date] whose matched value holds a date is
    stored as that date in ISO form with the shape bonus: its confidence
    is the base score plus 0.1. *)
Theorem X2_date_field_scores_bonus text template n cfg re m raw :
  well_formed template → (n, cfg) ∈ fields template →
  postprocess cfg = Some "date" →
  re_compile (pattern cfg) compile_flags = Ok re →
  regex_search re text = Ok (Some m) →
  select_value m = Some raw → first_date raw ≠ None →
  ∃ fs avg,
    extract_fields text template = Ok (fs, avg)
    ∧ fs !! n = Some {| value := spec_normalize_date raw;
                        confidence := base_confidence (pattern cfg) + 0.1 |}.
Proof.
  intros Hwf Hin Hk Hre Hm Hv Hd.
  assert (postprocess_value (select_value m) (default "strip" (postprocess cfg))
          = Ok (Some (spec_normalize_date raw))) as Hpv.
  { rewrite Hk, Hv. apply postprocess_value_date. }
  destruct (matched_field_result re_compile regex_search _ _ _ _ _ _ _
              Hwf Hin Hre Hm Hpv) as (fs & avg & [v c] & Hfs & Hr & Hval & Hc).
  exists fs, avg. split; [done|]. rewrite Hr. cbn in Hval, Hc. subst v c.
  unfold any_shape. by rewrite (normalized_date_shape raw Hd), orb_true_r.
Qed.

(** X5.  The keys of the result map are the names of the fields that are
    required or were matched and processed: a required field is always
    there, and no key comes from outside the template. *)
Theorem X5_result_keys text template fs avg n :
  well_formed template →
  extract_fields text template = Ok (fs, avg) →
  is_Some (fs !! n)
  ↔ ∃ cfg, (n, cfg) ∈ fields template
           ∧ (default true (required cfg) = true
              ∨ ∃ pv c, process_field text cfg = Ok (Some (pv, c))).
Proof.
  intros Hwf. rewrite extract_fields_returns. intros [= <- _]. split.
  - intros Hn. destruct (decide (n ∈ (fields template).*1)) as [Hin|Hout].
    + apply list_elem_of_fmap in Hin as ([n' cfg] & -> & Hin). cbn in *.
      exists cfg. split; [done|].
      rewrite (result_lookup_in _ _ _ _ _ _ Hwf Hin) in Hn.
      unfold emitted in Hn.
      destruct (process_field text cfg) as [[[pv c]|]|]; [by eauto|..];
        (destruct (default true (required cfg)); [by left|]);
        by destruct Hn.
    + rewrite extract_loop_lookup_notin in Hn by done.
      cbn in Hn. rewrite lookup_empty in Hn. by destruct Hn.
  - intros (cfg & Hin & H).
    rewrite (result_lookup_in _ _ _ _ _ _ Hwf Hin). unfold emitted.
    destruct H as [-> | (pv & c & ->)]; [|by eexists].
    by destruct (process_field text cfg) as [[[pv c]|]|]; eexists.
Qed.

(** X6.  A field of kind [currency] is never extracted, whatever the text
    and the pattern: it is stored empty with confidence 0 when required and
    left out when not. *)
Theorem X6_currency_field_always_missing text template n cfg :
  well_formed template → (n, cfg) ∈ fields template →
  postprocess cfg = Some "currency" →
  ∃ fs avg,
    extract_fields text template = Ok (fs, avg)
    ∧ fs !! n = if default true (required cfg)
                then Some {| value := ""; confidence := 0.0 |}
                else None.
Proof.
  intros Hwf Hin Hk. rewrite extract_fields_returns. eexists _, _.
  split; [done|]. rewrite (result_lookup_in _ _ _ _ _ _ Hwf Hin).
  unfold emitted.
  destruct (currency_field_fails re_compile regex_search text cfg Hk)
    as [-> | [e ->]]; by destruct (default true (required cfg)).
Qed.

(** X7.  No stored confidence exceeds 0.9: the score 1.0 cannot be
    reached and the clamp never takes effect.  The scores computed in
    binary64 obey the same bound. *)
Theorem X7_scores_at_most_nine_tenths text template fs avg :
  extract_fields text template = Ok (fs, avg) →
  (∀ n r, fs !! n = Some r → (confidence r <= 0.9)%Q)
  ∧ ∀ long_pattern shaped,
      (float_score long_pattern shaped <=? float_score true true)%float = true
      ∧ (float_score true true <? 1)%float = true.
Proof.
  rewrite extract_fields_returns. intros [= <- <-]. split.
  - intros n r Hr. apply confidence_value_le.
    by apply (extract_loop_values re_compile regex_search text
                (fields template) init (map_Forall_empty _) n r).
  - intros long_pattern shaped. by destruct long_pattern, shaped; vm_compute.
Qed.

(** X8.  The order of the fields in the template does not change the
    result map.  The average is taken over the same confidences in the
    other order; as the floats are added from the left, it can change with
    the order: the scores 0.9, 0.8 and 0.7 average to different floats in
    two orders. *)
Theorem X8_field_order_irrelevant text template template' :
  well_formed template →
  fields template ≡ₚ fields template' →
  (∃ fs avg avg',
     extract_fields text template = Ok (fs, avg)
     ∧ extract_fields text template' = Ok (fs, avg')
     ∧ avg = mean (appended text (fields template))
     ∧ avg' = mean (appended text (fields template'))
     ∧ appended text (fields template) ≡ₚ appended text (fields template'))
  ∧ scores_in_order ≡ₚ scores_reordered
  ∧ float_average scores_in_order ≠ float_average scores_reordered.
Proof.
  intros Hwf Hp. split.
  - rewrite !extract_fields_returns.
    assert (well_formed template') as Hwf'.
    { unfold well_formed in *. by rewrite <- Hp. }
    eexists _, _, _. split; [done|]. split; [|split; [done|split; [done|]]].
    + f_equal. f_equal. apply map_eq. intros n.
      destruct (decide (n ∈ (fields template).*1)) as [Hin|Hout].
      * apply list_elem_of_fmap in Hin as ([n' cfg] & -> & Hin). cbn.
        rewrite (result_lookup_in _ _ _ _ _ _ Hwf' ltac:(by rewrite <- Hp)).
        by rewrite (result_lookup_in _ _ _ _ _ _ Hwf Hin).
      * rewrite !extract_loop_lookup_notin; [done..|by rewrite <- Hp].
    + unfold appended. by rewrite Hp.
  - split.
    + unfold scores_in_order, scores_reordered.
      etrans; [apply Permutation_cons_append|done].
    + intros H. by vm_compute in H.
Qed.

End MoreExtractorFacts.

Lemma X2_date_field_scores_bonus_witness :
  ∃ fs avg,
    run_extract_fields sample_text sample_template = Ok (fs, avg)
    ∧ fs !! "date"
      = Some {| value := spec_normalize_date "01/15/2024";
                confidence := base_confidence (pattern date_field) + 0.1 |}.
Proof.
  eapply (X2_date_field_scores_bonus Re.compile py_search sample_text
            sample_template "date" date_field).
  - apply (bool_decide_unpack _). by vm_compute.
  - apply list_elem_of_further, list_elem_of_here.
  - reflexivity.
  - by vm_compute.
  - by vm_compute.
  - by vm_compute.
  - by vm_compute.
Defined.

Lemma X5_result_keys_witness :
  is_Some (st_fields (extract_loop Re.compile py_search sample_text
                        (fields sample_template) init) !! "total")
  ↔ ∃ cfg, ("total", cfg) ∈ fields sample_template
           ∧ (default true (required cfg) = true
              ∨ ∃ pv c, process_field Re.compile py_search sample_text cfg
                        = Ok (Some (pv, c))).
Proof.
  apply (X5_result_keys Re.compile py_search sample_text sample_template
           _ (mean (appended Re.compile py_search sample_text
                      (fields sample_template))) "total").
  - apply (bool_decide_unpack _). by vm_compute.
  - apply extract_fields_returns.
Defined.

Lemma X6_currency_field_always_missing_witness :
  ∃ fs avg,
    run_extract_fields sample_text sample_template = Ok (fs, avg)
    ∧ fs !! "total" = Some {| value := ""; confidence := 0.0 |}.
Proof.
  apply (X6_currency_field_always_missing Re.compile py_search sample_text
           sample_template "total" total_field).
  - apply (bool_decide_unpack _). by vm_compute.
  - do 2 apply list_elem_of_further. apply list_elem_of_here.
  - reflexivity.
Defined.

Lemma X7_scores_at_most_nine_tenths_witness :
  (∀ n r,
     st_fields (extract_loop Re.compile py_search sample_text
                  (fields sample_template) init) !! n = Some r →
     (confidence r <= 0.9)%Q)
  ∧ ∀ long_pattern shaped,
      (float_score long_pattern shaped <=? float_score true true)%float = true
      ∧ (float_score true true <? 1)%float = true.
Proof.
  apply (X7_scores_at_most_nine_tenths Re.compile py_search sample_text
           sample_template _
           (mean (appended Re.compile py_search sample_text
                    (fields sample_template)))).
  apply extract_fields_returns.
Defined.

Lemma X8_field_order_irrelevant_witness :
  (∃ fs avg avg',
     run_extract_fields sample_text sample_template = Ok (fs, avg)
     ∧ run_extract_fields sample_text sample_template_swapped = Ok (fs, avg')
     ∧ avg = mean (appended Re.compile py_search sample_text
                     (fields sample_template))
     ∧ avg' = mean (appended Re.compile py_search sample_text
                      (fields sample_template_swapped))
     ∧ appended Re.compile py_search sample_text (fields sample_template)
       ≡ₚ appended Re.compile py_search sample_text
            (fields sample_template_swapped))
  ∧ scores_in_order ≡ₚ scores_reordered
  ∧ float_average scores_in_order ≠ float_average scores_reordered.
Proof.
  apply (X8_field_order_irrelevant Re.compile py_search sample_text
           sample_template sample_template_swapped).
  - apply (bool_decide_unpack _). by vm_compute.
  - apply perm_swap.
Defined.

(** ** The built-in templates *)

Section BuiltinTemplates.

Context {regex : Type}.
Variable re_compile : string → Re.flags → result regex.
Variable regex_search : regex → string → result (option Re.Match).

#[local] Abbreviation emitted := (emitted re_compile regex_search).
#[local] Abbreviation extract_fields := (extract_fields re_compile regex_search).
#[local] Abbreviation appended := (appended re_compile regex_search).

Lemma emitted_required text cfg :
  default true (required cfg) = true →
  ∃ r c, emitted text cfg = Some (r, c) ∧ (0 <= c <= 0.9)%Q.
Proof.
  intros Hr. destruct (emitted text cfg) as [[r c]|] eqn:E.
  - exists r, c. split; [done|].
    apply emitted_value in E as [_ Hc]. split.
    + by apply confidence_value_clamp.
    + by apply confidence_value_le.
  - unfold emitted in E. rewrite Hr in E.
    by destruct (process_field _ _ text cfg) as [[[pv c]|]|].
Qed.

Lemma emitted_optional text cfg :
  emitted text cfg = None
  ∨ ∃ r c, emitted text cfg = Some (r, c) ∧ (0 <= c <= 0.9)%Q.
Proof.
  destruct (emitted text cfg) as [[r c]|] eqn:E; [right | by left].
  exists r, c. split; [done|]. apply emitted_value in E as [_ Hc]. split.
  - by apply confidence_value_clamp.
  - by apply confidence_value_le.
Qed.

Lemma emitted_currency text cfg :
  postprocess cfg = Some "currency" → required cfg = Some true →
  emitted text cfg = Some ({| value := ""; confidence := 0.0 |}, 0.0%Q).
Proof.
  intros Hk Hr. unfold emitted. rewrite Hr.
  by destruct (currency_field_fails re_compile regex_search text cfg Hk)
    as [-> | [e ->]].
Qed.

Lemma builtin_template_results euro tname template text :
  (tname, template) ∈ TEMPLATES euro →
  (∃ cfg, ("total_amount", cfg) ∈ fields template
          ∧ Re.compile (pattern cfg) compile_flags
            = Raise (ReError "bad escape \p"))
  ∧ ∃ fs avg,
      extract_fields text template = Ok (fs, avg)
      ∧ fs !! "total_amount" = Some {| value := ""; confidence := 0.0 |}
      ∧ (avg <= 0.675)%Q.
Proof.
  intros Hin. unfold TEMPLATES in Hin.
  apply elem_of_cons in Hin as [[= -> ->] | Hin];
    [|apply elem_of_cons in Hin as [[= -> ->] | Hin];
      [|by apply elem_of_nil in Hin]].
  - split.
    { eexists. split;
        [do 2 apply list_elem_of_further; apply list_elem_of_here
        | by vm_compute]. }
    rewrite extract_fields_returns. eexists _, _. split; [done|]. split.
    + erewrite result_lookup_in;
        [| apply (bool_decide_unpack _); by vm_compute
         | do 2 apply list_elem_of_further; apply list_elem_of_here ].
      by rewrite emitted_currency.
    + unfold appended, invoice_v1. cbn [fields omap list_omap snd].
      match goal with |- context [emitted text ?c] =>
        rewrite (emitted_currency text c) by done end.
      match goal with |- context [emitted text ?c] =>
        destruct (emitted_required text c eq_refl) as (r1 & c1 & -> & H1) end.
      match goal with |- context [emitted text ?c] =>
        destruct (emitted_required text c eq_refl) as (r2 & c2 & -> & H2) end.
      match goal with |- context [emitted text ?c] =>
        destruct (emitted_optional text c) as [-> | (r4 & c4 & -> & H4)] end;
        cbn [fmap option_fmap option_map snd mean sum fold_left length];
        (apply Qle_shift_div_r; [by vm_compute|]);
        change (inject_Z (Z.of_nat 3)) with 3%Q;
        change (inject_Z (Z.of_nat 4)) with 4%Q; lra.
  - split.
    { eexists. split;
        [apply list_elem_of_further, list_elem_of_here | by vm_compute]. }
    rewrite extract_fields_returns. eexists _, _. split; [done|]. split.
    + erewrite result_lookup_in;
        [| apply (bool_decide_unpack _); by vm_compute
         | apply list_elem_of_further, list_elem_of_here ].
      by rewrite emitted_currency.
    + unfold appended, receipt_v1. cbn [fields omap list_omap snd].
      match goal with |- context [emitted text ?c] =>
        rewrite (emitted_currency text c) by done end.
      match goal with |- context [emitted text ?c] =>
        destruct (emitted_required text c eq_refl) as (r1 & c1 & -> & H1) end.
      match goal with |- context [emitted text ?c] =>
        destruct (emitted_required text c eq_refl) as (r2 & c2 & -> & H2) end.
      cbn [fmap option_fmap option_map snd mean sum fold_left length].
      apply Qle_shift_div_r; [by vm_compute|].
      change (inject_Z (Z.of_nat 3)) with 3%Q. lra.
Qed.

(** X9.  With either built-in template and whatever the text, the field
    [total_amount] is reported empty with confidence 0, and the average
    confidence is at most 0.675.  Under Python's [re] the patterns of this
    field do not even compile. *)
Theorem X9_builtin_total_amount_never_extracted euro tname template text :
  (tname, template) ∈ TEMPLATES euro →
  (∃ cfg, ("total_amount", cfg) ∈ fields template
          ∧ Re.compile (pattern cfg) compile_flags
            = Raise (ReError "bad escape \p"))
  ∧ ∃ fs avg,
      extract_fields text template = Ok (fs, avg)
      ∧ fs !! "total_amount" = Some {| value := ""; confidence := 0.0 |}
      ∧ (avg <= 0.675)%Q.
Proof. apply builtin_template_results. Qed.

End BuiltinTemplates.

Lemma X9_builtin_total_amount_never_extracted_witness :
  (∃ cfg, ("total_amount", cfg) ∈ fields receipt_v1
          ∧ Re.compile (pattern cfg) compile_flags
            = Raise (ReError "bad escape \p"))
  ∧ ∃ fs avg,
      run_extract_fields sample_text receipt_v1 = Ok (fs, avg)
      ∧ fs !! "total_amount" = Some {| value := ""; confidence := 0.0 |}
      ∧ (avg <= 0.675)%Q.
Proof.
  apply (X9_builtin_total_amount_never_extracted Re.compile py_search
           "" "receipt_v1" receipt_v1 sample_text).
  apply list_elem_of_further, list_elem_of_here.
Defined.

(** ** The HTTP layer *)

Lemma length_lstrip_le s : String.length (Str.lstrip s) ≤ String.length s.
Proof.
  induction s as [|c s IH]; cbn [Str.lstrip]; [done|].
  destruct (Str.isspace c); cbn [String.length]; lia.
Qed.

Lemma length_rstrip_le s : String.length (Str.rstrip s) ≤ String.length s.
Proof.
  induction s as [|c s IH]; cbn [Str.rstrip]; [done|].
  destruct (Str.rstrip s) as [|c' t].
  - destruct (Str.isspace c); cbn [String.length]; lia.
  - cbn [String.length] in *. lia.
Qed.

Lemma length_strip_le s : String.length (Str.strip s) ≤ String.length s.
Proof.
  unfold Str.strip. pose proof (length_rstrip_le (Str.lstrip s)).
  pose proof (length_lstrip_le s). lia.
Qed.

Lemma pypdf_text_parts_app l1 l2 :
  pypdf_text_parts (l1 ++ l2) = pypdf_text_parts l1 ++ pypdf_text_parts l2.
Proof.
  induction l1 as [|p l1 IH]; [done|]. cbn [app pypdf_text_parts].
  destruct p; [|done]. by rewrite IH, app_assoc.
Qed.

Lemma pypdf_text_parts_blank (l1 : list page) (p : page) (l2 : list page) :
  blank_page p → pypdf_text_parts (l1 ++ p :: l2) = pypdf_text_parts (l1 ++ l2).
Proof.
  intros H. rewrite !pypdf_text_parts_app. f_equal. cbn [pypdf_text_parts].
  by destruct p as [[[|c t]|]|].
Qed.

Lemma pdfplumber_text_parts_raises (l1 : list page) e (l2 : list page) :
  Forall readable l1 →
  pdfplumber_text_parts (l1 ++ Throw e :: l2) = Throw e.
Proof.
  induction 1 as [|p l1 [t ->] _ IH]; [done|].
  cbn [app pdfplumber_text_parts mbind outcome_bind]. by rewrite IH.
Qed.


Lemma dict_get_Some {A} k (d : list (string * A)) v :
  dict_get k d = Some v → (k, v) ∈ d.
Proof.
  induction d as [|[k' v'] d IH]; [done|]. cbn [dict_get].
  destruct (String.eqb_spec k' k) as [->|].
  - intros [= ->]. apply list_elem_of_here.
  - intros H. by apply list_elem_of_further, IH.
Qed.

Lemma dict_get_None {A} k (d : list (string * A)) :
  dict_get k d = None ↔ k ∉ d.*1.
Proof.
  induction d as [|[k' v'] d IH]; cbn [dict_get fmap list_fmap fst].
  - split; [|done]. intros _ H. by apply elem_of_nil in H.
  - rewrite not_elem_of_cons. destruct (String.eqb_spec k' k) as [->|Hne].
    + split; [done|]. by intros [? _].
    + rewrite IH. split; [|by intros [_ ?]]. intros H. split; [congruence|done].
Qed.

Lemma check_upload_cases file :
  (check_upload file = Throw (HTTPException 400 "File must be a PDF")
   ∧ ¬ declared_pdf file)
  ∨ (check_upload file
     = Throw (HTTPException 413 "File too large. Maximum size is 10MB")
     ∧ declared_pdf file ∧ declared_large file)
  ∨ (check_upload file = Return tt
     ∧ declared_pdf file ∧ ¬ declared_large file).
Proof.
  unfold check_upload, declared_pdf, declared_large.
  destruct (content_type file) as [[|c ct]|].
  - left. split; [done|]. by intros (ct & [= <-] & H).
  - destruct (String.prefix "application/pdf" (String c ct)) eqn:Hp.
    + right. cbn [negb]. destruct (size file) as [n|].
      * destruct (10 * 1024 * 1024 <? n)%N eqn:Hn.
        -- apply N.ltb_lt in Hn. left.
           destruct (N.eqb_spec n 0) as [->|]; [lia|]. cbn [negb andb].
           split; [done|]. split; by eauto.
        -- apply N.ltb_ge in Hn. right. rewrite andb_false_r.
           split; [done|]. split; [by eauto|]. intros (n' & [= <-] & H). lia.
      * right. split; [done|]. split; [by eauto|]. by intros (n & [=] & _).
    + left. cbn [negb]. split; [done|]. intros (ct' & [= <-] & H). congruence.
  - left. split; [done|]. by intros (ct & [=] & _).
Qed.
Lemma all_space_app a b : all_space (a +:+ b) = all_space a && all_space b.
Proof.
  induction a as [|c a IH]; [done|].
  change (String c a +:+ b) with (String c (a +:+ b)).
  cbn [all_space]. by rewrite IH, andb_assoc.
Qed.

Lemma all_space_join parts :
  Forall (λ s, all_space s = true) parts → all_space (join newline parts) = true.
Proof.
  induction 1 as [|p parts Hp _ IH]; [done|]. cbn [join].
  destruct parts as [|q parts]; [done|].
  by rewrite !all_space_app, Hp, IH.
Qed.

Lemma strip_all_space s : all_space s = true → Str.strip s = "".
Proof.
  intros H. unfold Str.strip.
  assert (Str.lstrip s = "") as ->; [|done].
  induction s as [|c s IH]; [done|]. cbn [all_space] in H.
  apply andb_prop in H as [Hc Hs]. cbn [Str.lstrip]. rewrite Hc. by apply IH.
Qed.

Lemma page_text_parts_space t :
  no_text (Return t) → Forall (λ s, all_space s = true) (page_text_parts t).
Proof.
  destruct t as [[|c s]|]; cbn [no_text page_text_parts]; by repeat constructor.
Qed.

Lemma pypdf_text_parts_space (pages : list page) :
  Forall no_text pages →
  Forall (λ s, all_space s = true) (pypdf_text_parts pages).
Proof.
  induction 1 as [|p pages Hp _ IH]; [done|]. cbn [pypdf_text_parts].
  destruct p as [t|]; [|done]. apply Forall_app. split; [|done].
  by apply page_text_parts_space.
Qed.

Lemma pdfplumber_text_parts_space (pages : list page) :
  Forall no_text pages → Forall readable pages →
  ∃ parts, pdfplumber_text_parts pages = Return parts
           ∧ Forall (λ s, all_space s = true) parts.
Proof.
  induction 1 as [|p pages Hp _ IH]; [by eexists|].
  intros Hr. apply Forall_cons in Hr as [[t ->] Hr].
  destruct (IH Hr) as (parts & Hparts & Hs).
  cbn [pdfplumber_text_parts mbind outcome_bind]. rewrite Hparts.
  cbn [mbind outcome_bind]. eexists. split; [done|].
  apply Forall_app. split; [|done]. by apply page_text_parts_space.
Qed.

(** X14.  A page on which pypdf raises, or for which it returns nothing or
    the empty text, leaves no trace: the text extracted is the one of the
    file without that page. *)
Theorem X14_pypdf_skips_unreadable_pages (exc_str : pyerr → string)
    (pypdf_pages pdfplumber_pages pypdf_pages' : bytes → outcome (list page))
    content (l1 l2 : list page) (p : page) :
  blank_page p →
  pypdf_pages content = Return (l1 ++ p :: l2) →
  pypdf_pages' content = Return (l1 ++ l2) →
  extract_text_from_pdf exc_str pypdf_pages pdfplumber_pages content
  = extract_text_from_pdf exc_str pypdf_pages' pdfplumber_pages content.
Proof.
  intros Hp H H'. unfold extract_text_from_pdf. rewrite H, H'.
  cbn [mbind outcome_bind]. by rewrite (pypdf_text_parts_blank l1 p l2 Hp).
Qed.

(** X15.  When pypdf finds fewer than 100 characters and pdfplumber raises
    on a page, the request fails with status 400 and the message of that
    exception, whatever the other pages hold. *)
Theorem X15_pdfplumber_page_error (exc_str : pyerr → string)
    (pypdf_pages pdfplumber_pages : bytes → outcome (list page))
    content (pages l1 l2 : list page) e :
  pypdf_pages content = Return pages →
  String.length (Str.strip (join newline (pypdf_text_parts pages))) < 100 →
  pdfplumber_pages content = Return (l1 ++ Throw e :: l2) →
  Forall readable l1 →
  extract_text_from_pdf exc_str pypdf_pages pdfplumber_pages content
  = Throw (HTTPException 400
             ("Could not extract text from PDF: " +:+ exc_str e)).
Proof.
  intros H Hlen H' Hl1. unfold extract_text_from_pdf. rewrite H.
  cbn [mbind outcome_bind]. apply Nat.ltb_lt in Hlen. rewrite Hlen, H'.
  cbn [mbind outcome_bind]. by rewrite (pdfplumber_text_parts_raises l1 e l2 Hl1).
Qed.

Section ServerFacts.
Context {regex : Type}.
Variable re_compile : string → Re.flags → result regex.
Variable regex_search : regex → string → result (option Re.Match).
Variable exc_str : pyerr → string.
Variable sha256_hexdigest : bytes → string.
Variable pypdf_pages : bytes → outcome (list page).
Variable pdfplumber_pages : bytes → outcome (list page).
Variable json_loads : string → outcome json.
Variable euro : string.

#[local] Abbreviation extract_text_from_pdf :=
  (extract_text_from_pdf exc_str pypdf_pages pdfplumber_pages).
#[local] Abbreviation read_text :=
  (read_text exc_str sha256_hexdigest pypdf_pages pdfplumber_pages).
#[local] Abbreviation extract_data :=
  (extract_data re_compile regex_search exc_str sha256_hexdigest pypdf_pages
     pdfplumber_pages euro).
#[local] Abbreviation extract_custom :=
  (extract_custom re_compile regex_search exc_str sha256_hexdigest pypdf_pages
     pdfplumber_pages json_loads).
#[local] Abbreviation extract_fields := (extract_fields re_compile regex_search).
#[local] Abbreviation extract_fields_json :=
  (extract_fields_json re_compile regex_search).

Lemma extract_text_throws content e :
  extract_text_from_pdf content = Throw e → ∃ d, e = HTTPException 400 d.
Proof.
  unfold extract_text_from_pdf.
  destruct (_ ≫= _); [done|]. intros [= <-]. eauto.
Qed.

Lemma read_text_returns file h text :
  read_text file = Return (h, text) →
  ∃ content,
    read file = Return content ∧ h = sha256_hexdigest content
    ∧ extract_text_from_pdf content = Return text
    ∧ 10 ≤ String.length (Str.strip text).
Proof.
  unfold read_text.
  destruct (read file) as [content|]; [|done]. cbn [mbind outcome_bind].
  destruct (extract_text_from_pdf content) as [t|] eqn:Ht; [|done].
  cbn [mbind outcome_bind].
  destruct (String.length (Str.strip t) <? 10) eqn:E; [done|].
  apply Nat.ltb_ge in E. intros [= <- <-]. by exists content.
Qed.

Lemma read_text_throws file e :
  read_text file = Throw e →
  read file = Throw e ∨ ∃ d, e = HTTPException 400 d.
Proof.
  unfold read_text.
  destruct (read file) as [content|]; [|intros [= <-]; by left].
  cbn [mbind outcome_bind].
  destruct (extract_text_from_pdf content) as [t|] eqn:Ht.
  - cbn [mbind outcome_bind].
    destruct (String.length (Str.strip t) <? 10); [|done].
    intros [= <-]. eauto.
  - cbn [mbind outcome_bind]. intros [= <-]. right.
    by apply extract_text_throws in Ht.
Qed.


Lemma internal_error_throws {A} (body : outcome A) e :
  internal_error exc_str body = Throw e →
  ∃ e', body = Throw e'
        ∧ e = match e' with
              | HTTPException _ _ => e'
              | _ => HTTPException 500 ("Internal server error: " +:+ exc_str e')
              end.
Proof.
  destruct body as [a|e']; [done|]. intros H. exists e'. split; [done|].
  by destruct e'; injection H as <-.
Qed.

Lemma internal_error_returns {A} (body : outcome A) a :
  internal_error exc_str body = Return a → body = Return a.
Proof. destruct body as [a'|[]]; by intros [= ->]. Qed.


Lemma read_text_cases file :
  (∃ e, read file = Throw e ∧ read_text file = Throw e)
  ∨ (∃ content, read file = Return content
       ∧ ((∃ d, read_text file = Throw (HTTPException 400 d))
          ∨ ∃ text, read_text file = Return (sha256_hexdigest content, text)
                    ∧ extract_text_from_pdf content = Return text
                    ∧ 10 ≤ String.length (Str.strip text))).
Proof.
  destruct (read_text file) as [[h text]|e] eqn:H.
  - apply read_text_returns in H as (content & Hr & -> & Ht & Hlen).
    right. exists content. split; [done|]. right. by exists text.
  - destruct (read file) as [content|e'] eqn:Hr.
    + right. exists content. split; [done|]. left.
      apply read_text_throws in H as [H | [d ->]]; [congruence | by eauto].
    + left. exists e'. split; [done|].
      unfold read_text in H. rewrite Hr in H. done.
Qed.

Lemma extract_data_unknown file name :
  check_upload file = Return tt → name ∉ get_templates euro →
  extract_data file name
  = Throw (HTTPException 404 ("Template '" +:+ name +:+ "' not found")).
Proof.
  intros Hc Hn. unfold extract_data. rewrite Hc.
  cbn [mbind outcome_bind]. apply dict_get_None in Hn. by rewrite Hn.
Qed.

Lemma extract_data_known file name template :
  check_upload file = Return tt →
  dict_get name (TEMPLATES euro) = Some template →
  extract_data file name
  = internal_error exc_str
      (read_text file ≫= λ '(file_hash, text),
         Return {| template_used := name;
                   response_fields :=
                     st_fields (extract_loop re_compile regex_search text
                                  (fields template) init);
                   raw_text_chars := String.length text;
                   confidence_avg :=
                     mean (appended re_compile regex_search text
                             (fields template));
                   file_hash := file_hash |}).
Proof.
  intros Hc Hn. unfold extract_data. rewrite Hc.
  cbn [mbind outcome_bind]. rewrite Hn. f_equal.
  destruct (read_text file) as [[h text]|e]; [|done].
  cbn [mbind outcome_bind]. by rewrite extract_fields_returns.
Qed.

Lemma known_template name :
  name ∈ get_templates euro →
  ∃ template, dict_get name (TEMPLATES euro) = Some template.
Proof.
  intros H. destruct (dict_get name (TEMPLATES euro)) eqn:E; [by eauto|].
  by apply dict_get_None in E.
Qed.

Lemma extract_data_throws file name e :
  extract_data file name = Throw e →
  ∃ status d,
    e = HTTPException status d
    ∧ ((status = 400 ∧ ¬ declared_pdf file)
       ∨ (status = 413 ∧ declared_pdf file ∧ declared_large file)
       ∨ (status = 404 ∧ declared_pdf file ∧ name ∉ get_templates euro)
       ∨ (status = 400 ∧ declared_pdf file ∧ name ∈ get_templates euro)
       ∨ ∃ e', read file = Throw e').
Proof.
  intros H.
  destruct (check_upload_cases file) as [[Hc Hp] | [(Hc & Hp & Hl) | (Hc & Hp & Hl)]].
  - unfold extract_data in H. rewrite Hc in H. injection H as <-.
    eexists _, _. split; [done|]. by left.
  - unfold extract_data in H. rewrite Hc in H. injection H as <-.
    eexists _, _. split; [done|]. right. by left.
  - destruct (decide (name ∈ get_templates euro)) as [Hin|Hout].
    + destruct (known_template name Hin) as [template Ht].
      rewrite (extract_data_known file name template Hc Ht) in H.
      apply internal_error_throws in H as (e' & H & ->).
      destruct (read_text_cases file)
        as [(e0 & Hr & Hrt) | (content & Hr & [[d Hrt] | (text & Hrt & _)])];
        rewrite Hrt in H; [| |done]; injection H as <-.
      * destruct e0; eexists _, _; (split; [done|]); do 4 right; by eauto.
      * eexists _, _. split; [done|]. do 3 right. by left.
    + rewrite (extract_data_unknown file name Hc Hout) in H. injection H as <-.
      eexists _, _. split; [done|]. do 2 right. by left.
Qed.

(** X10.  [extract_data] raises nothing but [HTTPException], and unless
    reading the upload itself raises, its status is 400, 404 or 413: with a
    built-in template the extraction never ends in an internal error. *)
Theorem X10_extract_data_errors file name e :
  extract_data file name = Throw e →
  ∃ status d,
    e = HTTPException status d
    ∧ (status = 400 ∨ status = 404 ∨ status = 413
       ∨ ∃ e', read file = Throw e').
Proof.
  intros H. apply extract_data_throws in H as (status & d & -> & H).
  exists status, d. split; [done|].
  destruct H as [[-> _] | [[-> _] | [[-> _] | [[-> _] | H]]]]; by eauto.
Qed.

(** X11.  A response of [extract_data] names a listed template, carries the
    hash of the bytes read, the length of the extracted text, which has at
    least 10 characters, and what [extract_fields] returns for that text
    and template; its field [total_amount] is empty with confidence 0 and
    its average confidence is at most 0.675. *)
Theorem X11_extract_data_response file name r :
  extract_data file name = Return r →
  declared_pdf file ∧ ¬ declared_large file
  ∧ name ∈ get_templates euro ∧ template_used r = name
  ∧ (∃ template content text,
       (name, template) ∈ TEMPLATES euro
       ∧ read file = Return content
       ∧ file_hash r = sha256_hexdigest content
       ∧ extract_text_from_pdf content = Return text
       ∧ raw_text_chars r = String.length text
       ∧ extract_fields text template
         = Ok (response_fields r, confidence_avg r))
  ∧ 10 ≤ raw_text_chars r
  ∧ response_fields r !! "total_amount"
    = Some {| value := ""; confidence := 0.0 |}
  ∧ (confidence_avg r <= 0.675)%Q.
Proof.
  intros H.
  destruct (check_upload_cases file) as [[Hc Hp] | [(Hc & Hp & Hl) | (Hc & Hp & Hl)]];
    [unfold extract_data in H; by rewrite Hc in H..|].
  destruct (decide (name ∈ get_templates euro)) as [Hin|Hout];
    [|by rewrite (extract_data_unknown file name Hc Hout) in H].
  destruct (known_template name Hin) as [template Ht].
  rewrite (extract_data_known file name template Hc Ht) in H.
  apply internal_error_returns in H.
  destruct (read_text_cases file)
    as [(e0 & Hr & Hrt) | (content & Hr & [[d Hrt] | (text & Hrt & Htext & Hlen)])];
    rewrite Hrt in H; [done..|]. injection H as <-.
  cbn [template_used response_fields raw_text_chars confidence_avg file_hash].
  apply dict_get_Some in Ht.
  do 4 (split; [done|]). split.
  { exists template, content, text. by rewrite extract_fields_returns. }
  split.
  { pose proof (length_strip_le text). lia. }
  destruct (builtin_template_results re_compile regex_search euro name template
              text Ht) as (_ & fs & avg & Hfs & Htotal & Havg).
  rewrite extract_fields_returns in Hfs. by injection Hfs as <- <-.
Qed.

(** X12.  For an upload that passes the checks and can be read,
    [extract_data] answers 404 exactly when the template name is not one
    that [get_templates] lists. *)
Theorem X12_not_found_iff_unlisted file name content :
  check_upload file = Return tt → read file = Return content →
  name ∉ get_templates euro
  ↔ ∃ d, extract_data file name = Throw (HTTPException 404 d).
Proof.
  intros Hc Hr. split.
  - intros Hn. eexists. by apply extract_data_unknown.
  - intros [d H] Hin. apply extract_data_throws in H as (s & d' & [= <- <-] & H).
    destruct H as [[[=] _] | [[[=] _] | [(_ & _ & Hn) | [[[=] _] | [e' He']]]]];
      [done | congruence].
Qed.

(** X13.  [extract_data] answers 413 exactly when the upload declares a PDF
    content type and a size above 10 * 1024 * 1024 bytes, provided the
    upload can be read: the limit itself is accepted, and a wrong content
    type is reported first. *)
Theorem X13_too_large_iff file name content :
  read file = Return content →
  (∃ d, extract_data file name = Throw (HTTPException 413 d))
  ↔ declared_pdf file ∧ declared_large file.
Proof.
  intros Hr. split.
  - intros [d H]. apply extract_data_throws in H as (s & d' & [= <- <-] & H).
    destruct H as [[[=] _] | [(_ & ? & ?) | [[[=] _] | [[[=] _] | [e' He']]]]];
      [done | congruence].
  - intros [Hp Hl].
    destruct (check_upload_cases file) as [[Hc Hp'] | [(Hc & _) | (Hc & _ & Hl')]];
      [done| |done].
    eexists. unfold extract_data. by rewrite Hc.
Qed.

(** X16.  A PDF in which neither reader finds anything but white space, as
    one made of scanned images, is answered with status 400 as empty or
    unreadable, however many pages it has. *)
Theorem X16_blank_pdf_rejected file name content (pages pages' : list page) :
  check_upload file = Return tt → name ∈ get_templates euro →
  read file = Return content →
  pypdf_pages content = Return pages → Forall no_text pages →
  pdfplumber_pages content = Return pages' →
  Forall no_text pages' → Forall readable pages' →
  extract_data file name
  = Throw (HTTPException 400 "PDF appears to be empty or unreadable").
Proof.
  intros Hc Hn Hr Hp Hpages Hp' Hpages' Hread.
  destruct (known_template name Hn) as [template Ht].
  rewrite (extract_data_known file name template Hc Ht).
  destruct (pdfplumber_text_parts_space pages' Hpages' Hread)
    as (parts & Hparts & Hs).
  assert (extract_text_from_pdf content = Return (join newline parts)) as Htext.
  { unfold extract_text_from_pdf. rewrite Hp.
    cbn [mbind outcome_bind].
    rewrite (strip_all_space _ (all_space_join _ (pypdf_text_parts_space _ Hpages))).
    cbn [String.length Nat.ltb Nat.leb]. rewrite Hp'.
    cbn [mbind outcome_bind]. by rewrite Hparts. }
  unfold read_text. rewrite Hr. cbn [mbind outcome_bind].
  rewrite Htext. cbn [mbind outcome_bind].
  by rewrite (strip_all_space _ (all_space_join _ Hs)).
Qed.

Lemma read_text_ok file content text :
  read file = Return content →
  extract_text_from_pdf content = Return text →
  10 ≤ String.length (Str.strip text) →
  read_text file = Return (sha256_hexdigest content, text).
Proof.
  intros Hr Ht Hlen. unfold read_text. rewrite Hr.
  cbn [mbind outcome_bind]. rewrite Ht. cbn [mbind outcome_bind].
  apply Nat.ltb_ge in Hlen. by rewrite Hlen.
Qed.

Lemma parse_template_scalar tj j :
  json_loads tj = Return j → scalar j →
  parse_template json_loads tj = Throw (Builtin TypeError).
Proof.
  intros H Hj. unfold parse_template. rewrite H. by destruct j.
Qed.

Lemma parse_template_ok tj j :
  json_loads tj = Return j →
  contains "name" j = Return true → contains "fields" j = Return true →
  parse_template json_loads tj = Return j.
Proof.
  intros H Hn Hf. unfold parse_template. rewrite H. cbn [mbind outcome_bind].
  rewrite Hn. cbn [mbind outcome_bind negb]. rewrite Hf. done.
Qed.

(** X17.  A template that decodes to [null], a boolean or a number makes
    [extract_custom] raise [TypeError]: neither handler catches it, so it
    is no [HTTPException]. *)
Theorem X17_scalar_template_uncaught file tj j :
  check_upload file = Return tt →
  json_loads tj = Return j → scalar j →
  extract_custom file tj = Throw (Builtin TypeError).
Proof.
  intros Hc H Hj. unfold extract_custom. rewrite Hc.
  cbn [mbind outcome_bind]. by rewrite (parse_template_scalar tj j H Hj).
Qed.

(** X18.  A template that decodes to a list or a string holding both
    [name] and [fields] passes the validation; once the PDF is read the
    request fails with status 500. *)
Theorem X18_list_template_internal_error file tj j content text :
  check_upload file = Return tt →
  json_loads tj = Return j →
  (∃ l, j = JList l) ∨ (∃ s, j = JStr s) →
  contains "name" j = Return true → contains "fields" j = Return true →
  read file = Return content →
  extract_text_from_pdf content = Return text →
  10 ≤ String.length (Str.strip text) →
  extract_custom file tj
  = Throw (HTTPException 500
             ("Internal server error: " +:+ exc_str (Builtin TypeError))).
Proof.
  intros Hc H Hj Hn Hf Hr Ht Hlen. unfold extract_custom.
  rewrite Hc. cbn [mbind outcome_bind].
  rewrite (parse_template_ok tj j H Hn Hf). cbn [mbind outcome_bind].
  rewrite (read_text_ok file content text Hr Ht Hlen).
  cbn [mbind outcome_bind]. by destruct Hj as [[l ->] | [s' ->]].
Qed.

Lemma extract_field_json_has_pattern text st n cfg :
  has_pattern cfg →
  ∃ st', extract_field_json re_compile regex_search text st n cfg = Return st'.
Proof.
  intros (d & p & -> & Hp). unfold extract_field_json, getitem, get.
  rewrite Hp. cbn [mbind outcome_bind]. destruct p; by eauto.
Qed.

Lemma extract_loop_json_has_pattern text l st :
  Forall (λ item : string * json, has_pattern item.2) l →
  ∃ st', extract_loop_json re_compile regex_search text l st = Return st'.
Proof.
  intros H. revert st. induction H as [|[n cfg] l Hcfg _ IH]; intros st.
  - by eexists.
  - cbn [extract_loop_json].
    destruct (extract_field_json_has_pattern text st n cfg Hcfg) as [st' ->].
    cbn [mbind outcome_bind]. apply IH.
Qed.

Lemma extract_loop_json_app text l1 l2 st :
  extract_loop_json re_compile regex_search text (l1 ++ l2) st
  = extract_loop_json re_compile regex_search text l1 st
    ≫= extract_loop_json re_compile regex_search text l2.
Proof.
  revert st. induction l1 as [|[n cfg] l1 IH]; intros st; [done|].
  cbn [app extract_loop_json].
  destruct (extract_field_json _ _ text st n cfg) as [st'|]; [|done].
  cbn [mbind outcome_bind]. apply IH.
Qed.

(** X19.  A field whose configuration has no [pattern], or is no
    dictionary, makes [extract_custom] fail with status 500 once the PDF
    is read, even when the field is optional, whatever the fields after
    it. *)
Theorem X19_field_without_pattern file tj d nm l1 n cfg l2 content text :
  check_upload file = Return tt →
  json_loads tj = Return (JDict d) →
  dict_get "name" d = Some nm →
  dict_get "fields" d = Some (JDict (l1 ++ (n, cfg) :: l2)) →
  Forall (λ item : string * json, has_pattern item.2) l1 →
  ¬ has_pattern cfg →
  read file = Return content →
  extract_text_from_pdf content = Return text →
  10 ≤ String.length (Str.strip text) →
  ∃ e, (e = KeyError "pattern" ∨ e = Builtin TypeError)
       ∧ extract_custom file tj
         = Throw (HTTPException 500
                    ("Internal server error: " +:+ exc_str e)).
Proof.
  intros Hc H Hnm Hfs Hl1 Hcfg Hr Ht Hlen.
  assert (∃ e, (e = KeyError "pattern" ∨ e = Builtin TypeError)
               ∧ ∀ st, extract_field_json re_compile regex_search text st n cfg
                       = Throw e) as (e & He & Hfield).
  { unfold extract_field_json, getitem.
    destruct cfg as [| | | | |l|c]; try by (eexists; split; [by right|]).
    destruct (dict_get "pattern" c) as [p|] eqn:Hp.
    - destruct Hcfg. by exists c, p.
    - eexists. split; [by left|done]. }
  exists e. split; [done|]. unfold extract_custom.
  rewrite Hc. cbn [mbind outcome_bind].
  rewrite (parse_template_ok tj (JDict d) H);
    [|cbn [contains]; rewrite ?Hnm, ?Hfs; f_equal;
      apply bool_decide_eq_true; by eexists..].
  cbn [mbind outcome_bind].
  rewrite (read_text_ok file content text Hr Ht Hlen).
  cbn [mbind outcome_bind]. unfold extract_fields_json.
  assert (getitem (JDict d) "fields" = Return (JDict (l1 ++ (n, cfg) :: l2)))
    as -> by (cbn [getitem]; by rewrite Hfs).
  cbn [mbind outcome_bind items].
  rewrite extract_loop_json_app.
  destruct (extract_loop_json_has_pattern text l1 init Hl1) as [st' ->].
  cbn [mbind outcome_bind extract_loop_json]. rewrite Hfield.
  cbn [mbind outcome_bind internal_error]. by destruct He as [-> | ->].
Qed.

Lemma extract_field_json_typed text st n cfg :
  extract_field_json re_compile regex_search text st n (field_to_json cfg)
  = Return (extract_field re_compile regex_search text st (n, cfg)).
Proof.
  by destruct cfg as [p [k|] [b|]].
Qed.

Lemma extract_loop_json_typed text l st :
  extract_loop_json re_compile regex_search text
    ((λ item, (item.1, field_to_json item.2)) <$> l) st
  = Return (extract_loop re_compile regex_search text l st).
Proof.
  revert st. induction l as [|[n cfg] l IH]; intros st; [done|].
  cbn [fmap list_fmap extract_loop_json fst snd].
  rewrite extract_field_json_typed. cbn [mbind outcome_bind]. apply IH.
Qed.

Lemma extract_fields_json_typed text template :
  extract_fields_json text (template_to_json template)
  = lift (extract_fields text template).
Proof.
  unfold extract_fields_json, template_to_json.
  change (getitem _ "fields")
    with (Return (JDict ((λ item, (item.1, field_to_json item.2))
                           <$> fields template))).
  cbn [mbind outcome_bind items]. rewrite extract_loop_json_typed.
  cbn [mbind outcome_bind]. unfold extract_fields.
  by destruct (match st_confidences _ with [] => _ | _ => _ end).
Qed.

(** X20.  On the dictionary that [json.loads] gives for a template,
    [extract_fields] does what the typed extractor does: the same map and
    the same average, and no exception. *)
Theorem X20_json_template_agrees text template :
  extract_fields_json text (template_to_json template)
  = lift (extract_fields text template)
  ∧ ∃ fs avg, extract_fields_json text (template_to_json template)
              = Return (fs, avg).
Proof.
  split; [apply extract_fields_json_typed|].
  rewrite extract_fields_json_typed, extract_fields_returns. by eexists _, _.
Qed.

Lemma builtin_template_name key template :
  (key, template) ∈ TEMPLATES euro →
  name template = key
  ∧ dict_get key (TEMPLATES euro) = Some template.
Proof.
  unfold TEMPLATES. intros H.
  apply elem_of_cons in H as [[= -> ->] | H];
    [|apply elem_of_cons in H as [[= -> ->] | H];
      [|by apply elem_of_nil in H]]; done.
Qed.

(** X21.  Sending a built-in template to [extract_custom] as JSON gives
    what [extract_data] gives for its name: the same response, or the same
    exception. *)
Theorem X21_custom_agrees_with_builtin file tj name template :
  (name, template) ∈ TEMPLATES euro →
  json_loads tj = Return (template_to_json template) →
  match extract_data file name with
  | Return r => extract_custom file tj = Return (as_custom r)
  | Throw e => extract_custom file tj = Throw e
  end.
Proof.
  intros Hin H. apply builtin_template_name in Hin as [Hname Ht].
  destruct (check_upload_cases file)
    as [[Hc Hp] | [(Hc & Hp & Hl) | (Hc & Hp & Hl)]];
    [unfold extract_data, extract_custom;
     by rewrite Hc..|].
  rewrite (extract_data_known file name template Hc Ht).
  unfold extract_custom. rewrite Hc. cbn [mbind outcome_bind].
  rewrite (parse_template_ok tj _ H); [|done..]. cbn [mbind outcome_bind].
  destruct (read_text file) as [[h text]|e]; [|by destruct e].
  cbn [mbind outcome_bind].
  rewrite extract_fields_json_typed, extract_fields_returns.
  cbn [lift mbind outcome_bind]. unfold as_custom.
  cbn [template_used response_fields raw_text_chars confidence_avg file_hash].
  by rewrite <- Hname.
Qed.

Lemma extract_field_unmatched_optional text st n cfg :
  required cfg = Some false →
  (∀ re m, re_compile (pattern cfg) compile_flags = Ok re →
           regex_search re text ≠ Ok (Some m)) →
  extract_field re_compile regex_search text st (n, cfg) = st.
Proof.
  intros Hr Hm. unfold extract_field, field_body, process_field.
  rewrite Hr. cbn [default missing].
  destruct (re_compile (pattern cfg) compile_flags) as [re|] eqn:Hre; [|done].
  cbn [mbind result_bind].
  destruct (regex_search re text) as [[m|]|] eqn:Hs; [|done..].
  by destruct (Hm re m eq_refl).
Qed.

(** X22.  When every field of the template is optional and none of the
    patterns matches, the result is the empty map with the average 0.0:
    nothing is divided by the number of stored fields. *)
Theorem X22_nothing_stored text template :
  Forall (λ item : string * FieldSpec,
            required item.2 = Some false
            ∧ ∀ re m, re_compile (pattern item.2) compile_flags = Ok re →
                      regex_search re text ≠ Ok (Some m))
         (fields template) →
  extract_fields text template = Ok (∅, 0.0%Q).
Proof.
  intros H.
  assert (∀ st, extract_loop re_compile regex_search text (fields template) st
                = st) as Hloop.
  { induction H as [|[n cfg] l [Hr Hm] _ IH]; intros st; [done|].
    unfold extract_loop. cbn [fold_left].
    rewrite (extract_field_unmatched_optional text st n cfg Hr Hm). apply IH. }
  unfold extract_fields. by rewrite Hloop.
Qed.

(** X23.  A custom template of the documented form never causes an
    internal error, whatever its patterns: unless reading the upload itself
    raises, [extract_custom] raises only [HTTPException] with status 400 or
    413. *)
Theorem X23_custom_template_errors file tj template e :
  json_loads tj = Return (template_to_json template) →
  extract_custom file tj = Throw e →
  ∃ status d,
    e = HTTPException status d
    ∧ (status = 400 ∨ status = 413 ∨ ∃ e', read file = Throw e').
Proof.
  intros H. unfold extract_custom.
  destruct (check_upload_cases file)
    as [[Hc Hp] | [(Hc & Hp & Hl) | (Hc & Hp & Hl)]]; rewrite Hc;
    [intros [= <-]; eexists _, _; split; [done|]; by eauto..|].
  cbn [mbind outcome_bind].
  rewrite (parse_template_ok tj _ H); [|done..]. cbn [mbind outcome_bind].
  intros He. apply internal_error_throws in He as (e' & He & ->).
  destruct (read_text_cases file)
    as [(e0 & Hr & Hrt) | (content & Hr & [[d Hrt] | (text & Hrt & _)])];
    rewrite Hrt in He.
  - injection He as <-.
    destruct e0; eexists _, _; (split; [done|]); do 2 right; by eauto.
  - injection He as <-. eexists _, _. split; [done|]. by left.
  - cbn [mbind outcome_bind] in He.
    by rewrite extract_fields_json_typed, extract_fields_returns in He.
Qed.
(** X24.  A response of [extract_custom] to a template of the documented
    form carries the template's name, the hash of the bytes read, the
    length of the extracted text and what [extract_fields] returns for
    that text and template. *)
Theorem X24_extract_custom_response file tj template r :
  json_loads tj = Return (template_to_json template) →
  extract_custom file tj = Return r →
  declared_pdf file ∧ ¬ declared_large file
  ∧ template_used r = JStr (name template)
  ∧ ∃ content text,
      read file = Return content
      ∧ file_hash r = sha256_hexdigest content
      ∧ extract_text_from_pdf content = Return text
      ∧ raw_text_chars r = String.length text
      ∧ 10 ≤ String.length (Str.strip text)
      ∧ extract_fields text template
        = Ok (response_fields r, confidence_avg r).
Proof.
  intros H. unfold extract_custom.
  destruct (check_upload_cases file)
    as [[Hc Hp] | [(Hc & Hp & Hl) | (Hc & Hp & Hl)]]; rewrite Hc; [done..|].
  cbn [mbind outcome_bind].
  rewrite (parse_template_ok tj _ H); [|done..]. cbn [mbind outcome_bind].
  intros Hr. apply internal_error_returns in Hr.
  destruct (read_text_cases file)
    as [(e0 & Hread & Hrt)
       | (content & Hread & [[d Hrt] | (text & Hrt & Htext & Hlen)])];
    rewrite Hrt in Hr; [done..|].
  cbn [mbind outcome_bind] in Hr.
  rewrite extract_fields_json_typed, extract_fields_returns in Hr.
  injection Hr as <-.
  cbn [template_used response_fields raw_text_chars confidence_avg file_hash].
  do 3 (split; [done|]). exists content, text.
  by rewrite extract_fields_returns.
Qed.

End ServerFacts.

Lemma X10_extract_data_errors_witness :
  ∃ status d,
    HTTPException 404 "Template 'invoice_v2' not found" = HTTPException status d
    ∧ (status = 400 ∨ status = 404 ∨ status = 413
       ∨ ∃ e', read sample_upload = Throw e').
Proof.
  apply (X10_extract_data_errors Re.compile py_search sample_exc_str
           sample_digest sample_reader sample_reader "" sample_upload
           "invoice_v2").
  reflexivity.
Defined.

Lemma X11_extract_data_response_witness :
  declared_pdf sample_upload ∧ ¬ declared_large sample_upload
  ∧ "receipt_v1" ∈ get_templates "" ∧ template_used sample_response = "receipt_v1"
  ∧ (∃ template content text,
       ("receipt_v1", template) ∈ TEMPLATES ""
       ∧ read sample_upload = Return content
       ∧ file_hash sample_response = sample_digest content
       ∧ extract_text_from_pdf sample_exc_str sample_reader sample_reader
           content = Return text
       ∧ raw_text_chars sample_response = String.length text
       ∧ run_extract_fields text template
         = Ok (response_fields sample_response,
               confidence_avg sample_response))
  ∧ 10 ≤ raw_text_chars sample_response
  ∧ response_fields sample_response !! "total_amount"
    = Some {| value := ""; confidence := 0.0 |}
  ∧ (confidence_avg sample_response <= 0.675)%Q.
Proof.
  apply (X11_extract_data_response Re.compile py_search sample_exc_str
           sample_digest sample_reader sample_reader "" sample_upload
           "receipt_v1" sample_response).
  by vm_compute.
Defined.

Lemma X12_not_found_iff_unlisted_witness :
  "invoice_v2" ∉ get_templates ""
  ↔ ∃ d, extract_data Re.compile py_search sample_exc_str sample_digest
           sample_reader sample_reader "" sample_upload "invoice_v2"
         = Throw (HTTPException 404 d).
Proof.
  apply (X12_not_found_iff_unlisted Re.compile py_search sample_exc_str
           sample_digest sample_reader sample_reader "" sample_upload
           "invoice_v2" sample_bytes); reflexivity.
Defined.

Lemma X13_too_large_iff_witness :
  (∃ d, extract_data Re.compile py_search sample_exc_str sample_digest
          sample_reader sample_reader "" large_upload "receipt_v1"
        = Throw (HTTPException 413 d))
  ↔ declared_pdf large_upload ∧ declared_large large_upload.
Proof.
  apply (X13_too_large_iff Re.compile py_search sample_exc_str sample_digest
           sample_reader sample_reader "" large_upload "receipt_v1"
           sample_bytes).
  reflexivity.
Defined.

Lemma X14_pypdf_skips_unreadable_pages_witness :
  extract_text_from_pdf sample_exc_str damaged_reader empty_reader sample_bytes
  = extract_text_from_pdf sample_exc_str sample_reader empty_reader sample_bytes.
Proof.
  apply (X14_pypdf_skips_unreadable_pages sample_exc_str damaged_reader
           empty_reader sample_reader sample_bytes
           [Return (Some sample_text)] [] damaged_page).
  - exact I.
  - reflexivity.
  - reflexivity.
Defined.

Lemma X15_pdfplumber_page_error_witness :
  extract_text_from_pdf sample_exc_str sample_reader damaged_reader sample_bytes
  = Throw (HTTPException 400
             ("Could not extract text from PDF: "
              +:+ sample_exc_str (LibraryError "cannot decode page"))).
Proof.
  apply (X15_pdfplumber_page_error sample_exc_str sample_reader damaged_reader
           sample_bytes [Return (Some sample_text)]
           [Return (Some sample_text)] []).
  - reflexivity.
  - vm_compute. lia.
  - reflexivity.
  - repeat constructor. by eexists.
Defined.

Lemma X16_blank_pdf_rejected_witness :
  extract_data Re.compile py_search sample_exc_str sample_digest
    scanned_reader scanned_reader "" sample_upload "receipt_v1"
  = Throw (HTTPException 400 "PDF appears to be empty or unreadable").
Proof.
  apply (X16_blank_pdf_rejected Re.compile py_search sample_exc_str
           sample_digest scanned_reader scanned_reader "" sample_upload
           "receipt_v1" sample_bytes
           [Return None; Return (Some "   ")]
           [Return None; Return (Some "   ")]).
  - reflexivity.
  - apply list_elem_of_further, list_elem_of_here.
  - reflexivity.
  - reflexivity.
  - by repeat constructor.
  - reflexivity.
  - by repeat constructor.
  - repeat constructor; by eexists.
Defined.

Lemma X17_scalar_template_uncaught_witness :
  extract_custom Re.compile py_search sample_exc_str sample_digest
    sample_reader sample_reader sample_loads sample_upload "null"
  = Throw (Builtin TypeError).
Proof.
  apply (X17_scalar_template_uncaught Re.compile py_search sample_exc_str
           sample_digest sample_reader sample_reader sample_loads
           sample_upload "null" JNull).
  - reflexivity.
  - reflexivity.
  - exact I.
Defined.

Lemma X18_list_template_internal_error_witness :
  extract_custom Re.compile py_search sample_exc_str sample_digest
    sample_reader sample_reader sample_loads sample_upload list_document
  = Throw (HTTPException 500
             ("Internal server error: "
              +:+ sample_exc_str (Builtin TypeError))).
Proof.
  apply (X18_list_template_internal_error Re.compile py_search sample_exc_str
           sample_digest sample_reader sample_reader sample_loads
           sample_upload list_document (JList [JStr "name"; JStr "fields"])
           sample_bytes sample_text).
  - reflexivity.
  - reflexivity.
  - left. by eexists.
  - reflexivity.
  - reflexivity.
  - reflexivity.
  - reflexivity.
  - vm_compute. lia.
Defined.

Lemma X19_field_without_pattern_witness :
  ∃ e, (e = KeyError "pattern" ∨ e = Builtin TypeError)
       ∧ extract_custom Re.compile py_search sample_exc_str sample_digest
           sample_reader sample_reader sample_loads sample_upload
           notes_document
         = Throw (HTTPException 500
                    ("Internal server error: " +:+ sample_exc_str e)).
Proof.
  apply (X19_field_without_pattern Re.compile py_search sample_exc_str
           sample_digest sample_reader sample_reader sample_loads
           sample_upload notes_document
           [("name", JStr "notes");
            ("fields", JDict [("note", JDict [("required", JBool false)])])]
           (JStr "notes") [] "note" (JDict [("required", JBool false)]) []
           sample_bytes sample_text).
  - reflexivity.
  - reflexivity.
  - reflexivity.
  - reflexivity.
  - constructor.
  - intros (d & p & [= <-] & Hp). vm_compute in Hp. discriminate Hp.
  - reflexivity.
  - reflexivity.
  - vm_compute. lia.
Defined.

Lemma X21_custom_agrees_with_builtin_witness :
  match extract_data Re.compile py_search sample_exc_str sample_digest
          sample_reader sample_reader "" sample_upload "receipt_v1" with
  | Return r =>
      extract_custom Re.compile py_search sample_exc_str sample_digest
        sample_reader sample_reader sample_loads sample_upload
        receipt_document
      = Return (as_custom r)
  | Throw e =>
      extract_custom Re.compile py_search sample_exc_str sample_digest
        sample_reader sample_reader sample_loads sample_upload
        receipt_document
      = Throw e
  end.
Proof.
  apply (X21_custom_agrees_with_builtin Re.compile py_search sample_exc_str
           sample_digest sample_reader sample_reader sample_loads ""
           sample_upload receipt_document "receipt_v1" receipt_v1).
  - apply list_elem_of_further, list_elem_of_here.
  - by vm_compute.
Defined.

Lemma X22_nothing_stored_witness :
  run_extract_fields sample_text optional_template = Ok (∅, 0.0%Q).
Proof.
  apply (X22_nothing_stored Re.compile py_search sample_text
           optional_template).
  repeat constructor. intros re m [= <-]. by vm_compute.
Defined.

Lemma X23_custom_template_errors_witness :
  ∃ status d,
    HTTPException 400 "PDF appears to be empty or unreadable"
    = HTTPException status d
    ∧ (status = 400 ∨ status = 413 ∨ ∃ e', read sample_upload = Throw e').
Proof.
  apply (X23_custom_template_errors Re.compile py_search sample_exc_str
           sample_digest empty_reader empty_reader sample_loads sample_upload
           receipt_document receipt_v1).
  - by vm_compute.
  - by vm_compute.
Defined.

Lemma X24_extract_custom_response_witness :
  declared_pdf sample_upload ∧ ¬ declared_large sample_upload
  ∧ template_used (as_custom sample_response) = JStr (name receipt_v1)
  ∧ ∃ content text,
      read sample_upload = Return content
      ∧ file_hash (as_custom sample_response) = sample_digest content
      ∧ extract_text_from_pdf sample_exc_str sample_reader sample_reader
          content = Return text
      ∧ raw_text_chars (as_custom sample_response) = String.length text
      ∧ 10 ≤ String.length (Str.strip text)
      ∧ run_extract_fields text receipt_v1
        = Ok (response_fields (as_custom sample_response),
              confidence_avg (as_custom sample_response)).
Proof.
  apply (X24_extract_custom_response Re.compile py_search sample_exc_str
           sample_digest sample_reader sample_reader sample_loads
           sample_upload receipt_document receipt_v1
           (as_custom sample_response)).
  - by vm_compute.
  - by vm_compute.
Defined.
